(** * A shallow embedding of the DHT single-wire thermometer driver

    The development follows the Go package [dht]: the pulse sampler
    [expectChange], the checksum helpers, the handshake, the signal
    reception and bit decoding loops, and the [device] methods [read],
    [Measurements] and the accessors.

    Conventions.
    - [uint8] and [uint16] values are integers of [Z]; every arithmetic
      operation of the source is followed by its wrap-around.
    - A slice is a [list Z]; an index out of range is a run-time panic.
    - The GPIO line is an oracle: the level seen by the k-th [Get] the
      program performs, together with the number of reads performed so far
      and the log of everything the program drove on the line.
    - The busy-wait loop of [expectChange] is unrolled with fuel; running
      out of fuel is a separate outcome, and the theorems show that a fuel
      above the ceiling is always enough. *)

From Stdlib Require Import ZArith Lia Bool List.
From stdpp Require Import base list.

Local Open Scope Z_scope.

Module Dht.

(** ** Machine integers *)

Definition wrap8 (x : Z) : Z := x mod 256.
Definition wrap16 (x : Z) : Z := x mod 65536.

Definition is_uint8 (x : Z) : Prop := 0 <= x < 256.

(** ** The outside world: one GPIO line, the sleep primitive, the interrupt mask *)

Definition Pin := Z.

Inductive PinMode := PinOutput | PinInput.

(** The two delays of the package, by name: how long they last plays no
    part in what follows. *)
Inductive Duration := startingLow | startTimeout.

Inductive Event :=
| EvConfigure (p : Pin) (m : PinMode)
| EvLow (p : Pin)
| EvHigh (p : Pin)
| EvSet (p : Pin) (level : bool)
| EvSleep (d : Duration)
| EvInterruptDisable
| EvInterruptEnable.

Record World := mkWorld {
  levels : nat -> bool;   (* level observed by the k-th pin read *)
  reads : nat;            (* pin reads performed so far *)
  trace : list Event      (* what the program did, most recent first *)
}.

(** The world after [n] more pin reads. *)
Definition advance (n : nat) (w : World) : World :=
  mkWorld (levels w) (n + reads w)%nat (trace w).

(** The level the program observes [k] reads from now. *)
Definition upcoming (w : World) (k : nat) : bool := levels w (k + reads w)%nat.

(** ** Computations: state passing, with panics and fuel exhaustion *)

Inductive outcome (A : Type) :=
| Ret (a : A) (w : World)
| Panic
| OutOfFuel.
Arguments Ret {A} a w.
Arguments Panic {A}.
Arguments OutOfFuel {A}.

Definition M (A : Type) : Type := World -> outcome A.

#[global] Instance M_ret : MRet M := fun A a w => Ret a w.

#[global] Instance M_bind : MBind M := fun A B k m w =>
  match m w with
  | Ret a w' => k a w'
  | Panic => Panic
  | OutOfFuel => OutOfFuel
  end.

Definition pinGet (p : Pin) : M bool :=
  fun w => Ret (levels w (reads w)) (mkWorld (levels w) (S (reads w)) (trace w)).

Definition emit (e : Event) : M unit :=
  fun w => Ret tt (mkWorld (levels w) (reads w) (e :: trace w)).

Definition pinConfigure (p : Pin) (m : PinMode) : M unit := emit (EvConfigure p m).
Definition pinLow (p : Pin) : M unit := emit (EvLow p).
Definition pinHigh (p : Pin) : M unit := emit (EvHigh p).
Definition pinSet (p : Pin) (level : bool) : M unit := emit (EvSet p level).
Definition sleep (d : Duration) : M unit := emit (EvSleep d).

(** Slice indexing [s[i]]: a panic when out of range. *)
Definition index (s : list Z) (i : Z) : M Z :=
  fun w => if i <? 0 then Panic
           else match s !! Z.to_nat i with
                | Some x => Ret x w
                | None => Panic
                end.

(** Slice assignment [s[i] = x]: a panic when out of range. *)
Definition assign (s : list Z) (i : Z) (x : Z) : M (list Z) :=
  fun w => if i <? 0 then Panic
           else if (Z.to_nat i <? length s)%nat then Ret (<[Z.to_nat i := x]> s) w
           else Panic.

(** ** Errors of the package *)

Inductive ErrorCode :=
| ChecksumError
| NoSignalError
| NoDataError
| UninitializedDataError.

(** A Go [error] value: [None] is [nil]. *)
Definition error := option ErrorCode.

(** ** The device *)

Section Driver.

(** The iteration ceiling of the pulse sampler, a [uint16] constant. *)
Variable timeout : Z.

(** Fuel for the busy-wait loop. *)
Variable fuel : nat.

(** The sensor variant and its decoding operation
    [extractData(buf) (temperature int16, humidity uint16)]. *)
Variable DeviceType : Type.
Variable variantExtractData : DeviceType -> list Z -> Z * Z.

Record device := mkDevice {
  pin : Pin;
  measurements : DeviceType;
  initialized : bool;
  temperature : Z;
  humidity : Z
}.

(** *** util.go *)

Definition powerUp (p : Pin) : M bool :=
  state ← pinGet p;
  (if negb state then pinHigh p;; sleep startTimeout else mret tt);;
  mret state.

(** [for ; p.Get() == oldState && counter != timeout; counter++ {}]:
    one unit of fuel per evaluation of the loop condition. *)
Fixpoint expectChange_loop (n : nat) (p : Pin) (oldState : bool) (counter : Z) : M Z :=
  match n with
  | O => fun _ => OutOfFuel
  | S n' =>
      level ← pinGet p;
      if Bool.eqb level oldState && negb (counter =? timeout)
      then expectChange_loop n' p oldState (wrap16 (counter + 1))
      else mret counter
  end.

Definition expectChange (p : Pin) (oldState : bool) : M Z :=
  expectChange_loop fuel p oldState 0.

Definition checksum (buf : list Z) : M Z := index buf 4.

Definition computeChecksum (buf : list Z) : M Z :=
  b0 ← index buf 0;
  b1 ← index buf 1;
  b2 ← index buf 2;
  b3 ← index buf 3;
  mret (wrap8 (wrap8 (wrap8 (b0 + b1) + b2) + b3)).

Definition isValid (buf : list Z) : M bool :=
  c ← checksum buf;
  s ← computeChecksum buf;
  mret (c =? s).

(** *** thermometer.go *)

Definition initiateCommunication (p : Pin) : M unit :=
  pinConfigure p PinOutput;;
  pinLow p;;
  sleep startingLow;;
  pinHigh p;;
  pinConfigure p PinInput.

Definition waitForDataTransmission (p : Pin) : M error :=
  c1 ← expectChange p true;
  if c1 =? timeout then mret (Some NoSignalError)
  else
    c2 ← expectChange p false;
    if c2 =? timeout then mret (Some NoSignalError)
    else
      c3 ← expectChange p true;
      if c3 =? timeout then mret (Some NoSignalError)
      else mret None.

(** The body of [for ; i < 40; i++] in [receiveSignals]; the body does not
    assign [i], so the loop runs it for i = 0, ..., 39: [n] counts the
    iterations that remain. *)
Fixpoint receiveSignals_loop (n : nat) (i : Z) (p : Pin) (result : list Z)
  : M (list Z) :=
  match n with
  | O => mret result
  | S n' =>
      c ← expectChange p false;
      result ← assign result (wrap8 (i * 2)) c;
      c ← expectChange p true;
      result ← assign result (wrap8 (wrap8 (i * 2) + 1)) c;
      receiveSignals_loop n' (wrap8 (i + 1)) p result
  end.

Definition receiveSignals (t : device) (result : list Z) : M (list Z) :=
  emit EvInterruptDisable;;
  result ← receiveSignals_loop 40 0 (pin t) result;
  emit EvInterruptEnable;;
  mret result.

(** The loop of [extractData], with the same convention on [n]. The slice
    [buf] is updated in place: the function returns its final contents next
    to the error. *)
Fixpoint extractData_loop (n : nat) (i : Z) (signals buf : list Z)
  : M (error * list Z) :=
  match n with
  | O => mret (None, buf)
  | S n' =>
      lowCycle ← index signals (wrap8 (i * 2));
      highCycle ← index signals (wrap8 (wrap8 (i * 2) + 1));
      if (lowCycle =? timeout) || (highCycle =? timeout)
      then mret (Some NoDataError, buf)
      else
        let byteN := Z.shiftr i 3 in
        b ← index buf byteN;
        buf ← assign buf byteN (wrap8 (Z.shiftl b 1));
        buf ← (if highCycle >? lowCycle
               then b ← index buf byteN; assign buf byteN (Z.lor b 1)
               else mret buf);
        extractData_loop n' (wrap8 (i + 1)) signals buf
  end.

Definition extractData (signals buf : list Z) : M (error * list Z) :=
  extractData_loop 40 0 signals buf.

Definition set_measurements (t : device) (temp hum : Z) : device :=
  mkDevice (pin t) (measurements t) (initialized t) temp hum.

Definition set_initialized (t : device) (b : bool) : device :=
  mkDevice (pin t) (measurements t) b (temperature t) (humidity t).

Definition read (t : device) : M (error * device) :=
  let buf := replicate 5 0 in
  let signals := replicate 80 0 in
  initiateCommunication (pin t);;
  err ← waitForDataTransmission (pin t);
  match err with
  | Some e => mret (Some e, t)
  | None =>
      signals ← receiveSignals t signals;
      r ← extractData signals buf;
      match r : error * list Z with
      | (Some e, _) => mret (Some e, t)
      | (None, buf) =>
          valid ← isValid buf;
          if negb valid then mret (Some ChecksumError, t)
          else
            let (temp, hum) := variantExtractData (measurements t) buf in
            mret (None, set_measurements t temp hum)
      end
  end.

(** The named results [temperature], [humidity] start at zero; [t'] is the
    device as [read] leaves it; the deferred [t.pin.Set(state)], whose
    receiver and argument are fixed when it is deferred, runs last. *)
Definition Measurements (t : device) : M ((Z * Z * error) * device) :=
  state ← powerUp (pin t);
  '(err, t') ← read t;
  let out :=
    match err with
    | Some _ => ((temperature t', humidity t', err), set_initialized t' true)
    | None => ((0, 0, err), t')
    end in
  pinSet (pin t) state;;
  mret out.

Definition ReadMeasurements (t : device) : M (error * device) :=
  '((_, _, err), t) ← Measurements t;
  mret (err, t).

Definition Temperature (t : device) : Z * error :=
  if negb (initialized t) then (0, Some UninitializedDataError)
  else (temperature t, None).

Definition Humidity (t : device) : Z * error :=
  if negb (initialized t) then (0, Some UninitializedDataError)
  else (humidity t, None).

(** The [float32] type, its conversion from integers and its division, and
    the conversion policy of a temperature scale. *)
Variable float32 : Type.
Variable float32_of_int : Z -> float32.
Variable float32_div : float32 -> float32 -> float32.
Variable TemperatureScale : Type.
Variable convertToFloat : TemperatureScale -> Z -> float32.

Definition TemperatureFloat (t : device) (scale : TemperatureScale)
  : float32 * error :=
  if negb (initialized t) then (float32_of_int 0, Some UninitializedDataError)
  else (convertToFloat scale (temperature t), None).

Definition HumidityFloat (t : device) : float32 * error :=
  if negb (initialized t) then (float32_of_int 0, Some UninitializedDataError)
  else (float32_div (float32_of_int (humidity t)) (float32_of_int 10), None).

(** The device that [New] and [NewWithPolicy] wrap. *)
Definition New_device (p : Pin) (deviceType : DeviceType) : device :=
  mkDevice p deviceType false 0 0.

End Driver.

Arguments mkDevice {DeviceType} _ _ _ _ _.
Arguments pin {DeviceType} _.
Arguments measurements {DeviceType} _.
Arguments initialized {DeviceType} _.
Arguments temperature {DeviceType} _.
Arguments humidity {DeviceType} _.
Arguments set_measurements {DeviceType} _ _ _.
Arguments set_initialized {DeviceType} _ _.
Arguments New_device {DeviceType} _ _.
Arguments Temperature {DeviceType} _.
Arguments Humidity {DeviceType} _.

End Dht.

Import Dht.

(** ** The earlier version of the device

    The earlier version of [thermometer.go] has a device without the
    initialized flag, accessors that cannot fail, and [ReadMeasurements] as
    its one entry point. Its [initiateCommunication],
    [waitForDataTransmission], [extractData] and the loop of
    [receiveSignals] are the functions of the later version word for word
    (the error values are the same conditions under lower-case names), so
    they are shared with [Dht]. *)

Module Legacy.

Section Driver.

Variable timeout : Z.
Variable fuel : nat.
Variable DeviceType : Type.
Variable variantExtractData : DeviceType -> list Z -> Z * Z.

Record device := mkDevice {
  pin : Pin;
  measurements : DeviceType;
  temperature : Z;
  humidity : Z
}.

Definition Temperature (t : device) : Z := temperature t.

Definition Humidity (t : device) : Z := humidity t.

Definition receiveSignals (t : device) (result : list Z) : M (list Z) :=
  emit EvInterruptDisable;;
  result ← Dht.receiveSignals_loop timeout fuel 40 0 (pin t) result;
  emit EvInterruptEnable;;
  mret result.

Definition set_measurements (t : device) (temp hum : Z) : device :=
  mkDevice (pin t) (measurements t) temp hum.

Definition read (t : device) : M (error * device) :=
  let buf := replicate 5 0 in
  let signals := replicate 80 0 in
  initiateCommunication (pin t);;
  err ← Dht.waitForDataTransmission timeout fuel (pin t);
  match err with
  | Some e => mret (Some e, t)
  | None =>
      signals ← receiveSignals t signals;
      r ← Dht.extractData timeout signals buf;
      match r : error * list Z with
      | (Some e, _) => mret (Some e, t)
      | (None, buf) =>
          valid ← isValid buf;
          if negb valid then mret (Some ChecksumError, t)
          else
            let (temp, hum) := variantExtractData (measurements t) buf in
            mret (None, set_measurements t temp hum)
      end
  end.

(** The deferred [t.pin.Set(state)] runs after [read] has returned. *)
Definition ReadMeasurements (t : device) : M (error * device) :=
  state ← powerUp (pin t);
  '(err, t') ← read t;
  pinSet (pin t) state;;
  mret (err, t').

Variable float32 : Type.
Variable float32_of_int : Z -> float32.
Variable float32_div : float32 -> float32 -> float32.
Variable TemperatureScale : Type.
Variable convertToFloat : TemperatureScale -> Z -> float32.

Definition TemperatureFloat (t : device) (scale : TemperatureScale) : float32 :=
  convertToFloat scale (temperature t).

Definition HumidityFloat (t : device) : float32 :=
  float32_div (float32_of_int (humidity t)) (float32_of_int 10).

Definition New (p : Pin) (deviceType : DeviceType) : device :=
  mkDevice p deviceType 0 0.

End Driver.

Arguments mkDevice {DeviceType} _ _ _ _.
Arguments pin {DeviceType} _.
Arguments measurements {DeviceType} _.
Arguments temperature {DeviceType} _.
Arguments humidity {DeviceType} _.
Arguments set_measurements {DeviceType} _ _ _.
Arguments Temperature {DeviceType} _.
Arguments Humidity {DeviceType} _.
Arguments New {DeviceType} _ _.

End Legacy.

(** A device of the later version seen as one of the earlier version. *)
Definition forget {DeviceType} (t : device DeviceType) : Legacy.device DeviceType :=
  Legacy.mkDevice (pin t) (measurements t) (temperature t) (humidity t).

(** A device of the earlier version seen as one of the later version that
    has not been marked initialized. *)
Definition lift {DeviceType} (t : Legacy.device DeviceType) : device DeviceType :=
  mkDevice (Legacy.pin t) (Legacy.measurements t) false
           (Legacy.temperature t) (Legacy.humidity t).

(** The outcome of the later version carried over to the earlier one. *)
Definition forget_outcome {DeviceType}
           (o : outcome (error * device DeviceType))
  : outcome (error * Legacy.device DeviceType) :=
  match o with
  | Ret (e, t) w => Ret (e, forget t) w
  | Panic => Panic
  | OutOfFuel => OutOfFuel
  end.

(** ** Fixtures: a sensor variant, devices and behaviours of the line *)

(** One sensor variant, the integer-encoding one. *)
Inductive Variant := IntegerVariant.

(** Modelled from the spec: the decoding operation [extractData] of the
    sensor variants, which the package declares outside the files embedded
    here. For the integer-encoding variant, humidity and temperature are the
    raw integers of bytes 0 and 2, returned in tenths (temperature first):
    the bytes [25,0,60,0,85] give humidity 250 and temperature 600. *)
Definition integerExtractData (v : Variant) (buf : list Z) : Z * Z :=
  (nth 2 buf 0 * 10, nth 0 buf 0 * 10).

(** A ceiling for the examples: a 16 MHz clock counted per millisecond. *)
Definition timeout_ex : Z := 16001.
Definition fuel_ex : nat := Z.to_nat 16002.

(** The line as a finite recording of samples; it idles high afterwards. *)
Definition recording (samples : list bool) : World :=
  mkWorld (fun k => nth k samples true) 0 [].

(** No sensor on the line: the pull-up keeps it high for ever. *)
Definition line_idle : World := recording [].

(** The samples of one data bit: the low phase, then a short high phase for
    0 and a long one for 1; the last sample of each list is the one that
    ends the wait. *)
Definition bit_samples (b : bool) : list bool :=
  [false; false; true] ++ (if b then [true; true; true; true; false] else [true; false]).

Definition byte_bits (x : Z) : list bool :=
  map (fun k => Z.testbit x (Z.of_nat k)) [7; 6; 5; 4; 3; 2; 1; 0]%nat.

(** A complete answer of the sensor: the level seen by the power-up guard,
    the three transitions of the handshake, then the forty bits. *)
Definition answer (payload : list Z) : list bool :=
  [true] ++ [true; true; false] ++ [false; false; true] ++ [true; true; false]
  ++ concat (map bit_samples (concat (map byte_bits payload))).

Definition line_answering (payload : list Z) : World := recording (answer payload).

Definition fresh : device Variant := New_device 4 IntegerVariant.

(** The transmission wait as the specification words it: three waits one
    after the other, whatever they return, and a failure when at least one of
    the three returned the ceiling. *)
Definition waitForDataTransmission_three_waits (timeout : Z) (fuel : nat) (p : Pin)
  : M error :=
  c1 ← expectChange timeout fuel p true;
  c2 ← expectChange timeout fuel p false;
  c3 ← expectChange timeout fuel p true;
  if (c1 =? timeout) || (c2 =? timeout) || (c3 =? timeout)
  then mret (Some NoSignalError)
  else mret None.

(** What one iteration of the decoding loop leaves in the current byte:
    the byte shifted left by one within 8 bits, with the new bit in its
    lowest position. *)
Definition shift_in (b : Z) (bit : bool) : Z :=
  if bit then Z.lor (wrap8 (Z.shiftl b 1)) 1 else wrap8 (Z.shiftl b 1).

(** The state of the buffer after the decoding loop has run for the bit
    pairs 0, ..., k-1: the bytes that were touched are 8-bit values, and bit
    [i] sits in byte [i / 8], as many positions from the bottom as bits were
    pushed into that byte after it. *)
Definition bits_decoded (signals buf : list Z) (k : nat) : Prop :=
  length buf = 5%nat
  /\ (forall j b, (8 * j < k)%nat -> buf !! j = Some b -> is_uint8 b)
  /\ (forall i low high,
        (i < k)%nat ->
        signals !! (2 * i)%nat = Some low ->
        signals !! (2 * i + 1)%nat = Some high ->
        exists b,
          buf !! (i / 8)%nat = Some b
          /\ Z.testbit b (Z.of_nat (Nat.min k (8 * (i / 8) + 8) - 1 - i))
             = (high >? low)).

(** What a computation returned, and how many pin reads the world had seen
    when it returned. *)
Definition returned {A} (o : outcome A) : option A :=
  match o with Ret a _ => Some a | _ => None end.

Definition reads_after {A} (o : outcome A) : option Z :=
  match o with Ret _ w => Some (Z.of_nat (reads w)) | _ => None end.

(** A device that holds the values of an earlier read. *)
Definition warm : device Variant := mkDevice 4 IntegerVariant true 215 480.

(** Forty bit pairs that spell a payload: (10, 30) for a 1, (30, 10) for a 0. *)
Definition pairs_of (payload : list Z) : list Z :=
  concat (map (fun b : bool => if b then [10; 30] else [30; 10])
              (concat (map byte_bits payload))).

(** A transmission that breaks off: the sensor acknowledges the handshake
    and sends its bits, but the line never leaves the high phase of the last
    one. No power-up sample: the recording starts at the handshake. *)
Definition line_cut : World :=
  recording (removelast (tl (answer [25; 0; 60; 0; 85]))).

(** The tick counts the driver measures on that line. *)
Definition counts_cut : list Z :=
  <[79%nat := timeout_ex]>
    (concat (map (fun b : bool => [2; if b then 4 else 1])
                 (concat (map byte_bits [25; 0; 60; 0; 85])))).

(** What the handshake leaves in the trace. *)
Definition handshake_events (p : Pin) : list Event :=
  [EvConfigure p PinInput; EvHigh p; EvSleep startingLow; EvLow p;
   EvConfigure p PinOutput].

(** The world of a recording after [n] pin reads and the events [evs]. *)
Definition later (w : World) (n : Z) (evs : list Event) : World :=
  mkWorld (levels w) (Z.to_nat n) evs.

(** The three ways a read fails. *)
Definition failed_read_kind (e : ErrorCode) : Prop :=
  e = NoSignalError \/ e = NoDataError \/ e = ChecksumError.

(** The tick counts the driver measures on a sensor that answers with
    [payload], and such a line as [read] meets it, from the handshake on. *)
Definition counts_of (payload : list Z) : list Z :=
  concat (map (fun b : bool => [2; if b then 4 else 1])
              (concat (map byte_bits payload))).

Definition line_payload : World := recording (tl (answer [25; 0; 60; 0; 85])).

(** ** Vocabulary of the further properties *)

(** From [w] to [w'] the line and the trace are the same, and between [lo]
    and [hi] more pin reads were performed. *)
Definition reads_within (w w' : World) (lo hi : Z) : Prop :=
  levels w' = levels w
  /\ trace w' = trace w
  /\ Z.of_nat (reads w) + lo <= Z.of_nat (reads w') <= Z.of_nat (reads w) + hi.

(** The three transitions of the sensor's acknowledgement as the samples to
    come show them: [a] samples high then one low, [b] more low then one
    high, [c] more high then one low. *)
Definition handshake_seen (w : World) (a b c : nat) : Prop :=
  (forall k, (k < a)%nat -> upcoming w k = true)
  /\ upcoming w a = false
  /\ (forall k, (k < b)%nat -> upcoming w (a + 1 + k) = false)
  /\ upcoming w (a + 1 + b) = true
  /\ (forall k, (k < c)%nat -> upcoming w (a + b + 2 + k) = true)
  /\ upcoming w (a + b + 2 + c) = false.

(** The tick counts spell the payload: pair [i] has the longer high phase
    exactly when bit [7 - i mod 8] of byte [i / 8] is set. *)
Definition spells (signals payload : list Z) : Prop :=
  forall (i : nat) (low high b : Z),
    (i < 40)%nat ->
    signals !! (2 * i)%nat = Some low ->
    signals !! (2 * i + 1)%nat = Some high ->
    payload !! (i / 8)%nat = Some b ->
    (low < high <-> Z.testbit b (Z.of_nat (7 - i mod 8)) = true).

(** What the power-up guard adds to the trace for a level it read. *)
Definition powerUp_events (p : Pin) (state : bool) : list Event :=
  if state then [] else [EvSleep startTimeout; EvHigh p].

(** What the reception adds to the trace. *)
Definition reception_events : list Event := [EvInterruptEnable; EvInterruptDisable].

(** What a read adds to the trace on top of the handshake, by its error: the
    reception did not take place when the sensor gave no signal. *)
Definition reception_trace (e : error) : list Event :=
  match e with
  | Some NoSignalError => []
  | _ => reception_events
  end.

(** ** Properties *)

Lemma index_lookup (s : list Z) (i : Z) (x : Z) (w : World) :
  0 <= i -> s !! Z.to_nat i = Some x -> index s i w = Ret x w.
Proof.
  intros Hi Hx. unfold index.
  destruct (i <? 0) eqn:E; [apply Z.ltb_lt in E; lia|]. now rewrite Hx.
Qed.

Lemma assign_in_range (s : list Z) (i : Z) (x : Z) (w : World) :
  0 <= i -> (Z.to_nat i < length s)%nat ->
  assign s i x w = Ret (<[Z.to_nat i := x]> s) w.
Proof.
  intros Hi Hlen. unfold assign.
  destruct (i <? 0) eqn:E; [apply Z.ltb_lt in E; lia|].
  destruct (Z.to_nat i <? length s)%nat eqn:E'; [reflexivity|].
  apply Nat.ltb_ge in E'. lia.
Qed.

Lemma loop_index_facts (k : nat) :
  (k < 40)%nat ->
  wrap8 (Z.of_nat k * 2) = Z.of_nat (2 * k)
  /\ wrap8 (wrap8 (Z.of_nat k * 2) + 1) = Z.of_nat (2 * k + 1)
  /\ wrap8 (Z.of_nat k + 1) = Z.of_nat (S k)
  /\ Z.shiftr (Z.of_nat k) 3 = Z.of_nat (k / 8).
Proof.
  intros Hk. unfold wrap8.
  rewrite (Z.mod_small (Z.of_nat k * 2)) by lia.
  rewrite !Z.mod_small by lia.
  repeat split; try lia.
  rewrite Z.shiftr_div_pow2 by lia.
  change (2 ^ 3) with (Z.of_nat 8). now rewrite <- Nat2Z.inj_div.
Qed.

Lemma advance_advance (a b : nat) (w : World) :
  advance a (advance b w) = advance (a + b) w.
Proof. unfold advance; simpl. f_equal. lia. Qed.

Lemma bind_Ret {A B} (m : M A) (k : A -> M B) (w w' : World) (a : A) :
  m w = Ret a w' -> (m ≫= k) w = k a w'.
Proof. intros H. unfold mbind, M_bind. now rewrite H. Qed.

(** Bit-level facts on [shift_in]. *)

Lemma shift_in_eq (b : Z) (bit : bool) :
  shift_in b bit = 2 * (b mod 128) + Z.b2z bit.
Proof.
  unfold shift_in, wrap8.
  rewrite Z.shiftl_mul_pow2 by lia. change (2 ^ 1) with 2.
  replace (b * 2) with (2 * b) by lia.
  change 256 with (2 * 128). rewrite Zmult_mod_distr_l.
  destruct bit; cbn [Z.b2z]; [|lia].
  apply Z.bits_inj'. intros n Hn.
  rewrite Z.lor_spec.
  destruct (Z.eq_dec n 0) as [->|Hne].
  - rewrite Z.testbit_odd_0. apply orb_true_r.
  - replace n with (Z.succ (n - 1)) by lia.
    rewrite Z.testbit_odd_succ, Z.testbit_even_succ by lia.
    replace (Z.testbit 1 (Z.succ (n - 1))) with false; [apply orb_false_r|].
    symmetry. apply Z.bits_above_log2; cbn; lia.
Qed.

Lemma shift_in_uint8 (b : Z) (bit : bool) : is_uint8 (shift_in b bit).
Proof.
  rewrite shift_in_eq. unfold is_uint8.
  pose proof (Z.mod_pos_bound b 128). destruct bit; cbn [Z.b2z]; lia.
Qed.

Lemma shift_in_testbit_0 (b : Z) (bit : bool) :
  Z.testbit (shift_in b bit) 0 = bit.
Proof.
  rewrite shift_in_eq. destruct bit; cbn [Z.b2z].
  - apply Z.testbit_odd_0.
  - rewrite Z.add_0_r. apply Z.testbit_even_0.
Qed.

Lemma shift_in_testbit_succ (b : Z) (bit : bool) (t : nat) :
  (t < 7)%nat ->
  Z.testbit (shift_in b bit) (Z.of_nat (S t)) = Z.testbit b (Z.of_nat t).
Proof.
  intros Ht. rewrite shift_in_eq, Nat2Z.inj_succ.
  destruct bit; cbn [Z.b2z].
  - rewrite Z.testbit_odd_succ by lia.
    change 128 with (2 ^ 7). apply Z.mod_pow2_bits_low. lia.
  - rewrite Z.add_0_r, Z.testbit_even_succ by lia.
    change 128 with (2 ^ 7). apply Z.mod_pow2_bits_low. lia.
Qed.

Lemma bits_decoded_init (signals buf : list Z) :
  length buf = 5%nat -> bits_decoded signals buf 0.
Proof.
  intros Hlen. split; [exact Hlen|]. split; intros; exfalso; lia.
Qed.

Lemma bits_decoded_step (signals buf : list Z) (k : nat) (low high b : Z) :
  (k < 40)%nat ->
  signals !! (2 * k)%nat = Some low ->
  signals !! (2 * k + 1)%nat = Some high ->
  buf !! (k / 8)%nat = Some b ->
  bits_decoded signals buf k ->
  bits_decoded signals (<[(k / 8)%nat := shift_in b (high >? low)]> buf) (S k).
Proof.
  intros Hk Hlow Hhigh Hb (Hlen & Hrange & Hbits).
  pose proof (Nat.div_mod_eq k 8) as Hdiv.
  pose proof (Nat.mod_upper_bound k 8 ltac:(lia)) as Hmod.
  assert (Hq : (k / 8 < length buf)%nat) by (apply lookup_lt_is_Some; eauto).
  split; [now rewrite length_insert|]. split.
  - intros j b' Hj Hb'.
    destruct (Nat.eq_dec j (k / 8)%nat) as [->|Hne].
    + rewrite list_lookup_insert_eq in Hb' by exact Hq.
      injection Hb' as <-. apply shift_in_uint8.
    + rewrite list_lookup_insert_ne in Hb' by congruence.
      apply (Hrange j); [lia | exact Hb'].
  - intros i low' high' Hi Hlow' Hhigh'.
    pose proof (Nat.div_mod_eq i 8) as Hdivi.
    pose proof (Nat.mod_upper_bound i 8 ltac:(lia)) as Hmodi.
    destruct (Nat.eq_dec (i / 8)%nat (k / 8)%nat) as [Heq|Hne].
    + rewrite Heq, list_lookup_insert_eq by exact Hq.
      eexists; split; [reflexivity|].
      destruct (Nat.eq_dec i k) as [->|Hik].
      * replace (Nat.min (S k) (8 * (k / 8) + 8) - 1 - k)%nat with 0%nat by lia.
        rewrite Hlow in Hlow'. rewrite Hhigh in Hhigh'.
        injection Hlow' as <-. injection Hhigh' as <-.
        apply shift_in_testbit_0.
      * destruct (Hbits i low' high') as (b0 & Hb0 & Hbit); [lia | assumption..|].
        rewrite Heq, Hb in Hb0. injection Hb0 as <-.
        replace (Nat.min (S k) (8 * (k / 8) + 8) - 1 - i)%nat
          with (S (k - 1 - i)) by lia.
        rewrite shift_in_testbit_succ by lia.
        rewrite <- Hbit. f_equal. lia.
    + assert (Hlt : (i / 8 < k / 8)%nat) by lia.
      destruct (Hbits i low' high') as (b0 & Hb0 & Hbit); [lia | assumption..|].
      exists b0. rewrite list_lookup_insert_ne by congruence.
      split; [exact Hb0|]. rewrite <- Hbit. f_equal. lia.
Qed.

(** *** The checksum *)

Lemma wrap8_sum4 (b0 b1 b2 b3 : Z) :
  wrap8 (wrap8 (wrap8 (b0 + b1) + b2) + b3) = (b0 + b1 + b2 + b3) mod 256.
Proof.
  unfold wrap8.
  rewrite Zplus_mod_idemp_l, <- Z.add_assoc, Zplus_mod_idemp_l.
  now rewrite Z.add_assoc.
Qed.

Lemma isValid_eval (b0 b1 b2 b3 b4 : Z) (w : World) :
  isValid [b0; b1; b2; b3; b4] w
  = Ret (b4 =? wrap8 (wrap8 (wrap8 (b0 + b1) + b2) + b3)) w.
Proof. reflexivity. Qed.

(** C4. A buffer of five bytes passes the checksum validation if and only
    if its last byte is the sum of the first four modulo 256; the bytes
    [0x32, 0x00, 0x19, 0x00, 0x4B] pass, and they fail once the last byte is
    replaced by [0x00]. *)
Theorem isValid_iff_checksum :
  (forall (b0 b1 b2 b3 b4 : Z) (w : World),
     exists v, isValid [b0; b1; b2; b3; b4] w = Ret v w
               /\ (v = true <-> b4 = (b0 + b1 + b2 + b3) mod 256))
  /\ (forall w, isValid [0x32; 0x00; 0x19; 0x00; 0x4B] w = Ret true w)
  /\ (forall w, isValid [0x32; 0x00; 0x19; 0x00; 0x00] w = Ret false w).
Proof.
  split; [|split; reflexivity].
  intros b0 b1 b2 b3 b4 w. eexists. split; [apply isValid_eval|].
  rewrite wrap8_sum4. apply Z.eqb_eq.
Qed.

Section Decoding.

Variable timeout : Z.

(** *** Bit decoding *)

Local Abbreviation extractData_loop := (Dht.extractData_loop timeout).
Local Abbreviation extractData := (Dht.extractData timeout).

Lemma extractData_loop_step (n k : nat) (signals buf : list Z) (w : World)
      (low high b : Z) :
  (k < 40)%nat ->
  signals !! (2 * k)%nat = Some low ->
  signals !! (2 * k + 1)%nat = Some high ->
  buf !! (k / 8)%nat = Some b ->
  extractData_loop (S n) (Z.of_nat k) signals buf w
  = if (low =? timeout) || (high =? timeout)
    then Ret (Some NoDataError, buf) w
    else extractData_loop n (Z.of_nat (S k)) signals
           (<[(k / 8)%nat := shift_in b (high >? low)]> buf) w.
Proof.
  intros Hk Hlow Hhigh Hb.
  destruct (loop_index_facts k Hk) as (E0 & E1 & Enext & Ebyte).
  assert (Hlen : (k / 8 < length buf)%nat)
    by (apply lookup_lt_is_Some; eauto).
  cbn [Dht.extractData_loop]. rewrite E1, E0, Enext, Ebyte.
  erewrite bind_Ret by (apply index_lookup; [lia | rewrite Nat2Z.id; exact Hlow]).
  erewrite bind_Ret by (apply index_lookup; [lia | rewrite Nat2Z.id; exact Hhigh]).
  destruct ((low =? timeout) || (high =? timeout)); [reflexivity|].
  erewrite bind_Ret by (apply index_lookup; [lia | rewrite Nat2Z.id; exact Hb]).
  erewrite bind_Ret by (apply assign_in_range; [lia | rewrite Nat2Z.id; exact Hlen]).
  rewrite Nat2Z.id. unfold shift_in.
  destruct (high >? low).
  - erewrite bind_Ret; [reflexivity|].
    erewrite bind_Ret
      by (apply index_lookup; [lia | rewrite Nat2Z.id; now apply list_lookup_insert_eq]).
    rewrite assign_in_range by (rewrite ?Nat2Z.id, ?length_insert; lia).
    now rewrite Nat2Z.id, list_insert_insert_eq.
  - erewrite bind_Ret; reflexivity.
Qed.

Lemma pair_lookups (signals buf : list Z) (k : nat) :
  (k < 40)%nat -> length signals = 80%nat -> length buf = 5%nat ->
  exists low high b,
    signals !! (2 * k)%nat = Some low
    /\ signals !! (2 * k + 1)%nat = Some high
    /\ buf !! (k / 8)%nat = Some b.
Proof.
  intros Hk Hs Hb.
  pose proof (Nat.div_mod_eq k 8). pose proof (Nat.mod_upper_bound k 8 ltac:(lia)).
  destruct (lookup_lt_is_Some_2 signals (2 * k)) as [low Hlow]; [lia|].
  destruct (lookup_lt_is_Some_2 signals (2 * k + 1)) as [high Hhigh]; [lia|].
  destruct (lookup_lt_is_Some_2 buf (k / 8)) as [b Hbyte]; [lia|].
  eauto 6.
Qed.

Lemma extractData_loop_returns (signals : list Z) (n : nat) :
  forall (k : nat) (buf : list Z) (w : World),
    (k + n = 40)%nat -> length signals = 80%nat -> length buf = 5%nat ->
    exists e buf',
      extractData_loop n (Z.of_nat k) signals buf w = Ret (e, buf') w
      /\ length buf' = 5%nat
      /\ (e = None \/ e = Some NoDataError).
Proof.
  induction n as [|n IH]; intros k buf w Hk Hs Hb.
  - exists None, buf. cbn. auto.
  - destruct (pair_lookups signals buf k) as (low & high & b & Hlow & Hhigh & Hbyte);
      [lia | assumption..|].
    rewrite (extractData_loop_step n k signals buf w low high b) by (assumption || lia).
    destruct ((low =? timeout) || (high =? timeout)).
    + exists (Some NoDataError), buf. auto.
    + apply IH; [lia | assumption | now rewrite length_insert].
Qed.

Lemma extractData_loop_decodes (signals : list Z) (n : nat) :
  forall (k : nat) (buf : list Z) (w : World),
    (k + n = 40)%nat -> length signals = 80%nat ->
    (forall s, s ∈ signals -> s <> timeout) ->
    bits_decoded signals buf k ->
    exists buf',
      extractData_loop n (Z.of_nat k) signals buf w = Ret (None, buf') w
      /\ bits_decoded signals buf' 40.
Proof.
  induction n as [|n IH]; intros k buf w Hk Hs Hclean Hinv.
  - replace k with 40%nat in Hinv by lia. exists buf. now split.
  - destruct (pair_lookups signals buf k) as (low & high & b & Hlow & Hhigh & Hbyte);
      [lia | assumption | apply Hinv |].
    rewrite (extractData_loop_step n k signals buf w low high b) by (assumption || lia).
    assert (Hl : low <> timeout) by (apply Hclean; eapply list_elem_of_lookup_2; eauto).
    assert (Hh : high <> timeout) by (apply Hclean; eapply list_elem_of_lookup_2; eauto).
    apply Z.eqb_neq in Hl, Hh. rewrite Hl, Hh. cbn [orb].
    apply IH; [lia | assumption | assumption |].
    apply bits_decoded_step; (assumption || lia).
Qed.

Lemma extractData_loop_timeout (signals : list Z) (n : nat) :
  forall (k : nat) (buf : list Z) (w : World),
    (k + n = 40)%nat -> length signals = 80%nat -> length buf = 5%nat ->
    (exists j, (2 * k <= j)%nat /\ signals !! j = Some timeout) ->
    exists buf',
      extractData_loop n (Z.of_nat k) signals buf w = Ret (Some NoDataError, buf') w
      /\ length buf' = 5%nat.
Proof.
  induction n as [|n IH]; intros k buf w Hk Hs Hb (j & Hj & Hjt).
  - apply lookup_lt_Some in Hjt. lia.
  - destruct (pair_lookups signals buf k) as (low & high & b & Hlow & Hhigh & Hbyte);
      [lia | assumption..|].
    rewrite (extractData_loop_step n k signals buf w low high b) by (assumption || lia).
    destruct (low =? timeout) eqn:El; [exists buf; now split|].
    destruct (high =? timeout) eqn:Eh; [exists buf; now split|].
    cbn [orb]. apply Z.eqb_neq in El, Eh.
    apply IH; [lia | assumption | now rewrite length_insert |].
    exists j. split; [|exact Hjt].
    destruct (Nat.eq_dec j (2 * k)%nat) as [->|]; [congruence|].
    destruct (Nat.eq_dec j (2 * k + 1)%nat) as [->|]; [congruence|].
    lia.
Qed.

(** C5. On 80 tick counts none of which is the timeout sentinel, the
    decoder succeeds and leaves five 8-bit bytes in the buffer, whatever the
    buffer held before; for every i below 40, bit [7 - i mod 8] of byte
    [i / 8] (most significant bit first) is 1 if and only if the high-phase
    count of pair i is strictly greater than its low-phase count, so equal
    counts give 0. *)
Theorem extractData_decodes (signals buf : list Z) (w : World) :
  length signals = 80%nat ->
  length buf = 5%nat ->
  (forall s, s ∈ signals -> s <> timeout) ->
  exists buf',
    extractData signals buf w = Ret (None, buf') w
    /\ length buf' = 5%nat
    /\ Forall is_uint8 buf'
    /\ forall (i : nat) (low high : Z),
        (i < 40)%nat ->
        signals !! (2 * i)%nat = Some low ->
        signals !! (2 * i + 1)%nat = Some high ->
        exists b,
          buf' !! (i / 8)%nat = Some b
          /\ (Z.testbit b (Z.of_nat (7 - i mod 8)) = true <-> low < high).
Proof.
  intros Hs Hb Hclean.
  destruct (extractData_loop_decodes signals 40 0 buf w)
    as (buf' & Hrun & Hlen & Hrange & Hbits);
    [reflexivity | assumption | assumption | now apply bits_decoded_init |].
  exists buf'. split; [exact Hrun|]. split; [exact Hlen|]. split.
  - apply Forall_lookup. intros j b Hj.
    apply (Hrange j); [|exact Hj]. apply lookup_lt_Some in Hj. lia.
  - intros i low high Hi Hlow Hhigh.
    destruct (Hbits i low high Hi Hlow Hhigh) as (b & Hbyte & Hbit).
    exists b. split; [exact Hbyte|].
    pose proof (Nat.div_mod_eq i 8). pose proof (Nat.mod_upper_bound i 8 ltac:(lia)).
    replace (7 - i mod 8)%nat with (Nat.min 40 (8 * (i / 8) + 8) - 1 - i)%nat by lia.
    rewrite Hbit. rewrite Z.gtb_ltb. apply Z.ltb_lt.
Qed.

End Decoding.

Section Properties.

Variable timeout : Z.
Variable fuel : nat.
Variable DeviceType : Type.
Variable variantExtractData : DeviceType -> list Z -> Z * Z.

Hypothesis timeout_uint16 : 0 <= timeout < 65536.
Hypothesis enough_fuel : (Z.to_nat timeout < fuel)%nat.

Local Abbreviation expectChange_loop := (Dht.expectChange_loop timeout).
Local Abbreviation expectChange := (Dht.expectChange timeout fuel).

(** *** The pulse sampler *)

Lemma expectChange_loop_spec (p : Pin) (oldState : bool) (n : nat) :
  forall (counter : Z) (w : World),
    0 <= counter <= timeout ->
    (Z.to_nat (timeout - counter) < n)%nat ->
    exists c,
      expectChange_loop n p oldState counter w
        = Ret c (advance (S (Z.to_nat (c - counter))) w)
      /\ counter <= c <= timeout
      /\ (forall k, (k < Z.to_nat (c - counter))%nat -> upcoming w k = oldState)
      /\ (c < timeout -> upcoming w (Z.to_nat (c - counter)) = negb oldState).
Proof.
  induction n as [|n IH]; intros counter w Hc Hn; [lia|].
  cbn [Dht.expectChange_loop].
  unfold mbind, M_bind, pinGet.
  destruct (Bool.eqb (levels w (reads w)) oldState) eqn:Elevel; cbn [andb].
  - destruct (counter =? timeout) eqn:Ect; cbn [negb].
    + apply Z.eqb_eq in Ect. subst counter.
      exists timeout. rewrite Z.sub_diag. cbn.
      repeat split; lia.
    + apply Z.eqb_neq in Ect.
      assert (Hw : wrap16 (counter + 1) = counter + 1)
        by (unfold wrap16; apply Z.mod_small; lia).
      rewrite Hw.
      destruct (IH (counter + 1) (mkWorld (levels w) (S (reads w)) (trace w)))
        as (c & Hrun & Hrange & Hsame & Hdiff); [lia | lia |].
      exists c. split; [|split; [lia|split]].
      * rewrite Hrun. change (mkWorld (levels w) (S (reads w)) (trace w)) with (advance 1 w).
        rewrite advance_advance. f_equal. f_equal. lia.
      * intros k Hk. destruct k as [|k].
        -- unfold upcoming; cbn. now apply Bool.eqb_prop.
        -- specialize (Hsame k). unfold upcoming in *; cbn in *.
           replace (k + S (reads w))%nat with (S (k + reads w)) in Hsame by lia.
           apply Hsame. lia.
      * intros Hlt. specialize (Hdiff Hlt). unfold upcoming in *; cbn in *.
        replace (Z.to_nat (c - counter)) with (S (Z.to_nat (c - (counter + 1)))) by lia.
        cbn. rewrite <- Hdiff. f_equal. lia.
  - exists counter. rewrite Z.sub_diag. cbn.
    repeat split; try lia.
    intros _. unfold upcoming. change (Z.to_nat 0) with 0%nat. cbn.
    destruct (levels w (reads w)), oldState; cbn in *; congruence.
Qed.

Lemma expectChange_returns (p : Pin) (oldState : bool) (w : World) :
  exists c,
    expectChange p oldState w = Ret c (advance (S (Z.to_nat c)) w)
    /\ 0 <= c <= timeout
    /\ (forall k, (k < Z.to_nat c)%nat -> upcoming w k = oldState)
    /\ (c < timeout -> upcoming w (Z.to_nat c) = negb oldState).
Proof.
  destruct (expectChange_loop_spec p oldState fuel 0 w) as (c & H); [lia | lia |].
  rewrite Z.sub_0_r in H. now exists c.
Qed.


(** *** The transmission wait *)

Local Abbreviation waitForDataTransmission := (Dht.waitForDataTransmission timeout fuel).
Local Abbreviation three_waits := (waitForDataTransmission_three_waits timeout fuel).

Lemma expectChange_Ret (p : Pin) (oldState : bool) (w : World) :
  exists c w', expectChange p oldState w = Ret c w' /\ 0 <= c <= timeout.
Proof.
  destruct (expectChange_returns p oldState w) as (c & Hrun & Hrange & _).
  eauto.
Qed.

Ltac run_with H := erewrite (bind_Ret _ _ _ _ _ H).

(** C8, amended. The transmission wait performs its waits in order
    (departure from high, from low, from high) and stops at the first one
    that returns the ceiling, with a NoSignalError; when the three waits all
    return below the ceiling it succeeds, and then it did exactly what three
    unconditional waits do. *)
Theorem waitForDataTransmission_stops_at_first_timeout (p : Pin) (w : World) :
  exists c1 w1,
    expectChange p true w = Ret c1 w1
    /\ ((c1 = timeout /\ waitForDataTransmission p w = Ret (Some NoSignalError) w1)
        \/ (c1 <> timeout /\ exists c2 w2,
              expectChange p false w1 = Ret c2 w2
              /\ ((c2 = timeout
                   /\ waitForDataTransmission p w = Ret (Some NoSignalError) w2)
                  \/ (c2 <> timeout /\ exists c3 w3,
                        expectChange p true w2 = Ret c3 w3
                        /\ ((c3 = timeout
                             /\ waitForDataTransmission p w
                                = Ret (Some NoSignalError) w3)
                            \/ (c3 <> timeout
                                /\ waitForDataTransmission p w = Ret None w3
                                /\ three_waits p w = Ret None w3)))))).
Proof.
  destruct (expectChange_Ret p true w) as (c1 & w1 & H1 & _).
  exists c1, w1. split; [exact H1|].
  unfold Dht.waitForDataTransmission, waitForDataTransmission_three_waits.
  run_with H1. run_with H1.
  destruct (c1 =? timeout) eqn:E1;
    [apply Z.eqb_eq in E1; left; now split | apply Z.eqb_neq in E1; right].
  split; [exact E1|].
  destruct (expectChange_Ret p false w1) as (c2 & w2 & H2 & _).
  exists c2, w2. split; [exact H2|].
  run_with H2. run_with H2.
  destruct (c2 =? timeout) eqn:E2;
    [apply Z.eqb_eq in E2; left; now split | apply Z.eqb_neq in E2; right].
  split; [exact E2|].
  destruct (expectChange_Ret p true w2) as (c3 & w3 & H3 & _).
  exists c3, w3. split; [exact H3|].
  run_with H3. run_with H3.
  destruct (c3 =? timeout) eqn:E3;
    [apply Z.eqb_eq in E3; left; now split | apply Z.eqb_neq in E3; right].
  now repeat split.
Qed.

Lemma waitForDataTransmission_returns (p : Pin) (w : World) :
  exists e w', waitForDataTransmission p w = Ret e w'
               /\ (e = None \/ e = Some NoSignalError).
Proof.
  unfold Dht.waitForDataTransmission.
  destruct (expectChange_Ret p true w) as (c1 & w1 & H1 & _). run_with H1.
  destruct (c1 =? timeout); [cbn; eauto|].
  destruct (expectChange_Ret p false w1) as (c2 & w2 & H2 & _). run_with H2.
  destruct (c2 =? timeout); [cbn; eauto|].
  destruct (expectChange_Ret p true w2) as (c3 & w3 & H3 & _). run_with H3.
  destruct (c3 =? timeout); cbn; eauto.
Qed.

(** The verdict of the transmission wait is the verdict of three
    unconditional waits: only the number of waits performed differs. *)
Lemma waitForDataTransmission_verdict (p : Pin) (w : World) :
  returned (waitForDataTransmission p w) = returned (three_waits p w).
Proof.
  destruct (expectChange_Ret p true w) as (c1 & w1 & H1 & _).
  destruct (expectChange_Ret p false w1) as (c2 & w2 & H2 & _).
  destruct (expectChange_Ret p true w2) as (c3 & w3 & H3 & _).
  unfold Dht.waitForDataTransmission, waitForDataTransmission_three_waits.
  run_with H1. run_with H1. run_with H2. run_with H3.
  destruct (c1 =? timeout); [reflexivity|].
  run_with H2.
  destruct (c2 =? timeout); [reflexivity|].
  run_with H3.
  destruct (c3 =? timeout); reflexivity.
Qed.

(** *** Signal reception *)

Local Abbreviation receiveSignals_loop := (Dht.receiveSignals_loop timeout fuel).
Local Abbreviation receiveSignals := (Dht.receiveSignals timeout fuel DeviceType).

Lemma receiveSignals_loop_returns (p : Pin) (n : nat) :
  forall (k : nat) (result : list Z) (w : World),
    (k + n = 40)%nat -> length result = 80%nat ->
    exists result' w',
      receiveSignals_loop n (Z.of_nat k) p result w = Ret result' w'
      /\ length result' = 80%nat.
Proof.
  induction n as [|n IH]; intros k result w Hk Hlen.
  - exists result, w. now split.
  - destruct (loop_index_facts k) as (E0 & E1 & Enext & _); [lia|].
    cbn [Dht.receiveSignals_loop]. rewrite E1, E0, Enext.
    destruct (expectChange_Ret p false w) as (c & w1 & Hc & _). run_with Hc.
    erewrite bind_Ret by (apply assign_in_range; lia).
    destruct (expectChange_Ret p true w1) as (c' & w2 & Hc' & _). run_with Hc'.
    erewrite bind_Ret by (apply assign_in_range; rewrite ?length_insert; lia).
    apply IH; [lia|]. now rewrite !length_insert.
Qed.

Lemma receiveSignals_returns (t : device DeviceType) (result : list Z) (w : World) :
  length result = 80%nat ->
  exists result' w',
    receiveSignals t result w = Ret result' w' /\ length result' = 80%nat.
Proof.
  intros Hlen. unfold Dht.receiveSignals.
  erewrite bind_Ret by reflexivity.
  edestruct (receiveSignals_loop_returns (pin t) 40 0 result) as (r & w' & Hr & Hlen');
    [reflexivity | exact Hlen |].
  change (Z.of_nat 0) with 0 in Hr. run_with Hr.
  erewrite bind_Ret by reflexivity. cbn. eauto.
Qed.

(** *** One read cycle *)

Local Abbreviation extractData := (Dht.extractData timeout).
Local Abbreviation read := (Dht.read timeout fuel DeviceType variantExtractData).
Local Abbreviation Measurements :=
  (Dht.Measurements timeout fuel DeviceType variantExtractData).

Lemma isValid_returns (buf : list Z) (w : World) :
  length buf = 5%nat -> exists v, isValid buf w = Ret v w.
Proof.
  intros Hlen.
  destruct buf as [|b0 [|b1 [|b2 [|b3 [|b4 [|]]]]]]; try discriminate.
  eexists. apply isValid_eval.
Qed.

(** The stages of [read], in order, and what each of them makes of the call. *)
Lemma read_cases (t : device DeviceType) (w : World) :
  exists w0 e1 w1,
    initiateCommunication (pin t) w = Ret tt w0
    /\ waitForDataTransmission (pin t) w0 = Ret e1 w1
    /\ match e1 with
       | Some e => e = NoSignalError /\ read t w = Ret (Some e, t) w1
       | None =>
           exists signals w2 e2 buf,
             receiveSignals t (replicate 80 0) w1 = Ret signals w2
             /\ length signals = 80%nat
             /\ extractData signals (replicate 5 0) w2 = Ret (e2, buf) w2
             /\ length buf = 5%nat
             /\ match e2 with
                | Some e => e = NoDataError /\ read t w = Ret (Some e, t) w2
                | None =>
                    exists valid,
                      isValid buf w2 = Ret valid w2
                      /\ read t w
                         = if valid
                           then Ret (None,
                                     set_measurements t
                                       (fst (variantExtractData (measurements t) buf))
                                       (snd (variantExtractData (measurements t) buf)))
                                    w2
                           else Ret (Some ChecksumError, t) w2
                end
       end.
Proof.
  unfold Dht.read.
  eexists. 
  destruct (waitForDataTransmission_returns (pin t)
              (mkWorld (levels w) (reads w)
                 (EvConfigure (pin t) PinInput :: EvHigh (pin t) :: EvSleep startingLow
                  :: EvLow (pin t) :: EvConfigure (pin t) PinOutput :: trace w)))
    as (e1 & w1 & H1 & He1).
  exists e1, w1. split; [reflexivity|]. split; [exact H1|].
  erewrite bind_Ret by reflexivity. run_with H1.
  destruct He1 as [-> | ->]; [|now split].
  destruct (receiveSignals_returns t (replicate 80 0) w1) as (signals & w2 & H2 & Hlen2);
    [apply length_replicate|].
  destruct (extractData_loop_returns timeout signals 40 0 (replicate 5 0) w2)
    as (e2 & buf & H3 & Hlen3 & He2); [reflexivity | assumption | apply length_replicate |].
  exists signals, w2, e2, buf.
  repeat (split; [assumption|]).
  run_with H2. run_with H3.
  destruct He2 as [-> | ->]; [|now split].
  destruct (isValid_returns buf w2 Hlen3) as (valid & H4).
  exists valid. split; [exact H4|]. run_with H4.
  destruct valid; cbn [negb]; [|reflexivity].
  now destruct (variantExtractData (measurements t) buf).
Qed.

Lemma read_returns (t : device DeviceType) (w : World) :
  exists e t' w', read t w = Ret (e, t') w'.
Proof.
  destruct (read_cases t w) as (w0 & e1 & w1 & _ & _ & H).
  destruct e1 as [e|]; [destruct H as [_ H]; eauto|].
  destruct H as (signals & w2 & e2 & buf & _ & _ & _ & _ & H).
  destruct e2 as [e|]; [destruct H as [_ H]; eauto|].
  destruct H as ([|] & _ & H); eauto.
Qed.

Lemma read_error_keeps_device (t t' : device DeviceType) (w w' : World) (e : ErrorCode) :
  read t w = Ret (Some e, t') w' -> t' = t /\ failed_read_kind e.
Proof.
  unfold failed_read_kind. intros Hread.
  destruct (read_cases t w) as (w0 & e1 & w1 & _ & _ & H).
  destruct e1 as [e'|].
  { destruct H as [-> H]. rewrite H in Hread. injection Hread as <- <- _. auto. }
  destruct H as (signals & w2 & e2 & buf & _ & _ & _ & _ & H).
  destruct e2 as [e'|].
  { destruct H as [-> H]. rewrite H in Hread. injection Hread as <- <- _. auto. }
  destruct H as (valid & _ & H). rewrite H in Hread.
  destruct valid; [discriminate|]. injection Hread as <- <- _. auto.
Qed.

Lemma powerUp_returns (p : Pin) (w : World) :
  exists w', powerUp p w = Ret (levels w (reads w)) w'.
Proof.
  unfold powerUp, mbind, M_bind, pinGet.
  destruct (levels w (reads w)); cbn; eauto.
Qed.

Lemma Measurements_cases (t : device DeviceType) (w : World) :
  exists state w0 e t' w1,
    powerUp (pin t) w = Ret state w0
    /\ read t w0 = Ret (e, t') w1
    /\ Measurements t w
       = Ret match e with
             | Some _ => ((temperature t', humidity t', e), set_initialized t' true)
             | None => ((0, 0, e), t')
             end
             (mkWorld (levels w1) (reads w1) (EvSet (pin t) state :: trace w1)).
Proof.
  destruct (powerUp_returns (pin t) w) as (w0 & H0).
  destruct (read_returns t w0) as (e & t' & w1 & H1).
  exists (levels w (reads w)), w0, e, t', w1.
  split; [exact H0|]. split; [exact H1|].
  unfold Dht.Measurements. run_with H0. run_with H1.
  now destruct e.
Qed.

Lemma Measurements_nil_result
      (t t' : device DeviceType) (w w' : World) (temp hum : Z) :
  Measurements t w = Ret ((temp, hum, None), t') w' ->
  temp = 0 /\ hum = 0 /\ initialized t' = initialized t.
Proof.
  intros Hm.
  destruct (Measurements_cases t w) as (state & w0 & e0 & t0 & w1 & _ & Hread & H).
  rewrite H in Hm. destruct e0 as [e0|]; [discriminate|].
  injection Hm as <- <- <- _.
  destruct (read_cases t w0) as (w0' & e1 & w1' & _ & _ & H1).
  destruct e1 as [e|]; [destruct H1 as [_ H1]; congruence|].
  destruct H1 as (signals & w2 & e2 & buf & _ & _ & _ & _ & H2).
  destruct e2 as [e|]; [destruct H2 as [_ H2]; congruence|].
  destruct H2 as (valid & _ & H2). rewrite H2 in Hread.
  destruct valid; [|discriminate]. injection Hread as <- _. auto.
Qed.

Lemma Measurements_error_initializes
      (t t' : device DeviceType) (w w' : World) (temp hum : Z) (e : ErrorCode) :
  Measurements t w = Ret ((temp, hum, Some e), t') w' -> initialized t' = true.
Proof.
  intros Hm.
  destruct (Measurements_cases t w) as (state & w0 & e0 & t0 & w1 & _ & _ & H).
  rewrite H in Hm. destruct e0 as [e0|]; [|discriminate].
  now injection Hm as _ _ _ <- _.
Qed.

(** C3. A read that fails returns the device exactly as it received it, and
    fails with NoSignalError, NoDataError or ChecksumError; a call of
    [Measurements] that fails leaves the stored temperature and humidity as
    they were before the call. *)
Theorem failed_read_keeps_measurements
        (t t' : device DeviceType) (w w' : World) (e : ErrorCode) :
  (read t w = Ret (Some e, t') w' -> t' = t /\ failed_read_kind e)
  /\ (forall temp hum,
        Measurements t w = Ret ((temp, hum, Some e), t') w' ->
        temperature t' = temperature t
        /\ humidity t' = humidity t
        /\ failed_read_kind e).
Proof.
  split; [apply read_error_keeps_device|].
  intros temp hum Hm.
  destruct (Measurements_cases t w) as (state & w0 & e0 & t0 & w1 & _ & Hread & H).
  rewrite H in Hm. destruct e0 as [e0|]; [|discriminate].
  injection Hm as _ _ <- <- _.
  destruct (read_error_keeps_device _ _ _ _ _ Hread) as [-> Hkind].
  now repeat split.
Qed.

(** C6. When one of the 80 tick counts is the timeout sentinel, the decoder
    fails with NoDataError; and a read whose reception produced such counts
    returns NoDataError with the device untouched, whatever the variant
    decoder and whether or not the bytes built so far would pass the
    checksum: neither of the two ever sees them. *)
Theorem timeout_sample_gives_NoData (signals : list Z) :
  length signals = 80%nat ->
  timeout ∈ signals ->
  (forall buf w,
      length buf = 5%nat ->
      exists buf', extractData signals buf w = Ret (Some NoDataError, buf') w)
  /\ (forall (t : device DeviceType) w w0 w1 w2,
        initiateCommunication (pin t) w = Ret tt w0 ->
        waitForDataTransmission (pin t) w0 = Ret None w1 ->
        receiveSignals t (replicate 80 0) w1 = Ret signals w2 ->
        read t w = Ret (Some NoDataError, t) w2).
Proof.
  intros Hlen Hin.
  apply list_elem_of_lookup_1 in Hin as [j Hj].
  assert (Hdec : forall buf w, length buf = 5%nat ->
            exists buf', extractData signals buf w = Ret (Some NoDataError, buf') w).
  { intros buf w Hbuf.
    destruct (extractData_loop_timeout timeout signals 40 0 buf w) as (buf' & Hrun & _);
      [reflexivity | assumption | assumption | exists j; split; [lia | exact Hj] |].
    now exists buf'. }
  split; [exact Hdec|].
  intros t w w0 w1 w2 Hinit Hwait Hrecv.
  destruct (read_cases t w) as (w0' & e1 & w1' & Hinit' & Hwait' & H).
  rewrite Hinit in Hinit'. injection Hinit' as <-.
  rewrite Hwait in Hwait'. injection Hwait' as <- <-.
  destruct H as (signals' & w2' & e2 & buf & Hrecv' & _ & Hext & _ & H).
  rewrite Hrecv in Hrecv'. injection Hrecv' as <- <-.
  destruct (Hdec (replicate 5 0) w2) as (buf' & Hext'); [apply length_replicate|].
  rewrite Hext' in Hext. injection Hext as <- <-.
  now destruct H as [_ H].
Qed.

(** C10. In signal reception and bit decoding no index leaves its array:
    for every loop index i from 0 to 39 the 8-bit products 2i and 2i+1 do
    not wrap and stay below 80, and the byte index i >> 3 is i / 8 and stays
    below 5; so decoding 80 counts into a buffer of 5 bytes, and receiving
    into an array of 80 counts, return without a panic and keep the
    lengths. *)
Theorem decoding_indices_in_bounds :
  (forall i, 0 <= i < 40 ->
     wrap8 (i * 2) = 2 * i
     /\ wrap8 (wrap8 (i * 2) + 1) = 2 * i + 1
     /\ 2 * i + 1 < 80
     /\ Z.shiftr i 3 = i / 8
     /\ 0 <= i / 8 < 5)
  /\ (forall signals buf w,
        length signals = 80%nat -> length buf = 5%nat ->
        exists e buf',
          extractData signals buf w = Ret (e, buf') w /\ length buf' = 5%nat)
  /\ (forall (t : device DeviceType) result w,
        length result = 80%nat ->
        exists signals w',
          receiveSignals t result w = Ret signals w' /\ length signals = 80%nat).
Proof.
  split; [|split].
  - intros i Hi. unfold wrap8.
    rewrite (Z.mod_small (i * 2)) by lia. rewrite Z.mod_small by lia.
    rewrite Z.shiftr_div_pow2 by lia. change (2 ^ 3) with 8.
    repeat split; try lia.
    + apply Z.div_pos; lia.
    + apply Z.div_lt_upper_bound; lia.
  - intros signals buf w Hs Hb.
    destruct (extractData_loop_returns timeout signals 40 0 buf w) as (e & buf' & Hrun & Hlen & _);
      [reflexivity | assumption | assumption |].
    now exists e, buf'.
  - intros t result w Hlen. now apply receiveSignals_returns.
Qed.

End Properties.

(** ** The driver on the fixtures *)

(** The decoder reads back a payload spelled as tick counts, and takes
    equal counts for a 0. *)
Example extractData_reads_payload :
  returned (extractData timeout_ex (pairs_of [25; 0; 60; 0; 85]) (replicate 5 0)
              line_idle)
  = Some (None, [25; 0; 60; 0; 85])
  /\ returned (extractData timeout_ex (replicate 80 7) (replicate 5 255) line_idle)
     = Some (None, [0; 0; 0; 0; 0]).
Proof. split; vm_compute; reflexivity. Qed.

(** A whole cycle on a sensor that answers: the values land in the device. *)
Example read_stores_payload :
  returned (read timeout_ex fuel_ex Variant integerExtractData fresh
              (recording (tl (answer [25; 0; 60; 0; 85]))))
  = Some (None, mkDevice 4 IntegerVariant false 600 250).
Proof. vm_compute; reflexivity. Qed.

(** C1. On a sensor that answers with a valid payload, [Measurements]
    returns a nil error and leaves the initialized flag of a new device
    false, so that [Temperature] still fails with UninitializedDataError. *)
Theorem Measurements_success_leaves_uninitialized :
  exists t',
    returned (Measurements timeout_ex fuel_ex Variant integerExtractData fresh
                (line_answering [25; 0; 60; 0; 85]))
    = Some ((0, 0, None), t')
    /\ initialized t' = false
    /\ Temperature t' = (0, Some UninitializedDataError).
Proof.
  eexists. split; [vm_compute; reflexivity|]. split; reflexivity.
Qed.

(** C2. On a sensor that answers with the payload [0x32, 0, 0x19, 0, 0x4B],
    [Measurements] returns a nil error together with the pair (0, 0), while
    the device stores the temperature 250 and the humidity 500 it has just
    decoded. *)
Theorem Measurements_success_returns_zeros :
  exists t',
    returned (Measurements timeout_ex fuel_ex Variant integerExtractData fresh
                (line_answering [0x32; 0x00; 0x19; 0x00; 0x4B]))
    = Some ((0, 0, None), t')
    /\ temperature t' = 250
    /\ humidity t' = 500.
Proof.
  eexists. split; [vm_compute; reflexivity|]. split; reflexivity.
Qed.

(** C7. On a line without a sensor, [Measurements] on a new device fails
    with NoSignalError, and afterwards the four accessors succeed (with the
    zero values) although no read ever succeeded; and after the one
    successful read of a new device the integer accessors still fail with
    UninitializedDataError. *)
Theorem accessors_after_failed_read :
  (exists t',
      returned (Measurements timeout_ex fuel_ex Variant integerExtractData fresh line_idle)
      = Some ((0, 0, Some NoSignalError), t')
      /\ Temperature t' = (0, None)
      /\ Humidity t' = (0, None)
      /\ (forall (float32 : Type) (of_int : Z -> float32)
                 (div : float32 -> float32 -> float32)
                 (Scale : Type) (conv : Scale -> Z -> float32) (scale : Scale),
             snd (TemperatureFloat Variant float32 of_int Scale conv t' scale) = None
             /\ snd (HumidityFloat Variant float32 of_int div t') = None))
  /\ (exists t',
        returned (Measurements timeout_ex fuel_ex Variant integerExtractData fresh
                    (line_answering [25; 0; 60; 0; 85]))
        = Some ((0, 0, None), t')
        /\ Temperature t' = (0, Some UninitializedDataError)
        /\ Humidity t' = (0, Some UninitializedDataError)).
Proof.
  split.
  - eexists. split; [vm_compute; reflexivity|]. repeat split.
  - eexists. split; [vm_compute; reflexivity|]. split; reflexivity.
Qed.

(** C8, as stated, fails on a line without a sensor: the first wait returns
    the ceiling and the transmission wait returns at once, after the 16002
    pin reads of that single wait, where three successive waits read the
    pin 32005 times. *)
Lemma waitForDataTransmission_single_wait :
  reads_after (waitForDataTransmission timeout_ex fuel_ex 4 line_idle)
  = Some 16002
  /\ reads_after (expectChange timeout_ex fuel_ex 4 true line_idle)
     = Some 16002
  /\ reads_after (waitForDataTransmission_three_waits timeout_ex fuel_ex 4 line_idle)
     = Some 32005
  /\ waitForDataTransmission timeout_ex fuel_ex 4 line_idle
     <> waitForDataTransmission_three_waits timeout_ex fuel_ex 4 line_idle.
Proof.
  assert (H1 : reads_after (waitForDataTransmission timeout_ex fuel_ex 4 line_idle)
               = Some 16002) by (vm_compute; reflexivity).
  assert (H3 : reads_after
                 (waitForDataTransmission_three_waits timeout_ex fuel_ex 4 line_idle)
               = Some 32005) by (vm_compute; reflexivity).
  split; [exact H1|]. split; [vm_compute; reflexivity|]. split; [exact H3|].
  intros Heq. rewrite Heq, H3 in H1. discriminate H1.
Qed.

(** ** The general statements at concrete inputs *)

Ltac fixture_bounds := unfold timeout_ex, fuel_ex; lia.

Ltac all_differ :=
  vm_compute; repeat (constructor; [discriminate|]); constructor.


Lemma extractData_decodes_witness :
  length (pairs_of [25; 0; 60; 0; 85]) = 80%nat
  /\ length (replicate 5 0) = 5%nat
  /\ (forall s, s ∈ pairs_of [25; 0; 60; 0; 85] -> s <> timeout_ex)
  /\ exists buf',
      extractData timeout_ex (pairs_of [25; 0; 60; 0; 85]) (replicate 5 0) line_idle
      = Ret (None, buf') line_idle
      /\ length buf' = 5%nat
      /\ Forall is_uint8 buf'
      /\ forall (i : nat) (low high : Z),
          (i < 40)%nat ->
          pairs_of [25; 0; 60; 0; 85] !! (2 * i)%nat = Some low ->
          pairs_of [25; 0; 60; 0; 85] !! (2 * i + 1)%nat = Some high ->
          exists b,
            buf' !! (i / 8)%nat = Some b
            /\ (Z.testbit b (Z.of_nat (7 - i mod 8)) = true <-> low < high).
Proof.
  assert (Hclean : forall s, s ∈ pairs_of [25; 0; 60; 0; 85] -> s <> timeout_ex).
  { apply Forall_forall. all_differ. }
  split; [reflexivity|]. split; [reflexivity|]. split; [exact Hclean|].
  apply (extractData_decodes timeout_ex); [reflexivity | reflexivity | exact Hclean].
Defined.

Lemma timeout_sample_gives_NoData_witness :
  length counts_cut = 80%nat
  /\ timeout_ex ∈ counts_cut
  /\ length (replicate 5 0) = 5%nat
  /\ initiateCommunication (pin warm) line_cut
     = Ret tt (later line_cut 0 (handshake_events 4))
  /\ waitForDataTransmission timeout_ex fuel_ex (pin warm)
       (later line_cut 0 (handshake_events 4))
     = Ret None (later line_cut 9 (handshake_events 4))
  /\ receiveSignals timeout_ex fuel_ex Variant warm (replicate 80 0)
       (later line_cut 9 (handshake_events 4))
     = Ret counts_cut
           (later line_cut 16239
              (EvInterruptEnable :: EvInterruptDisable :: handshake_events 4))
  /\ (exists buf',
        extractData timeout_ex counts_cut (replicate 5 0) line_cut
        = Ret (Some NoDataError, buf') line_cut)
  /\ read timeout_ex fuel_ex Variant integerExtractData warm line_cut
     = Ret (Some NoDataError, warm)
           (later line_cut 16239
              (EvInterruptEnable :: EvInterruptDisable :: handshake_events 4)).
Proof.
  assert (Hlen : length counts_cut = 80%nat) by reflexivity.
  assert (Hin : timeout_ex ∈ counts_cut)
    by (apply (list_elem_of_lookup_2 _ 79%nat); reflexivity).
  assert (Hinit : initiateCommunication (pin warm) line_cut
                  = Ret tt (later line_cut 0 (handshake_events 4)))
    by reflexivity.
  assert (Hwait : waitForDataTransmission timeout_ex fuel_ex (pin warm)
                    (later line_cut 0 (handshake_events 4))
                  = Ret None (later line_cut 9 (handshake_events 4)))
    by (vm_compute; reflexivity).
  assert (Hrecv : receiveSignals timeout_ex fuel_ex Variant warm (replicate 80 0)
                    (later line_cut 9 (handshake_events 4))
                  = Ret counts_cut
                        (later line_cut 16239
                           (EvInterruptEnable :: EvInterruptDisable
                            :: handshake_events 4)))
    by (vm_compute; reflexivity).
  destruct (timeout_sample_gives_NoData timeout_ex fuel_ex Variant integerExtractData
              ltac:(fixture_bounds) ltac:(fixture_bounds) _ Hlen Hin)
    as [Hdec Hread].
  repeat (split; [first [assumption | reflexivity]|]).
  split; [apply Hdec; reflexivity|].
  exact (Hread warm _ _ _ _ Hinit Hwait Hrecv).
Defined.

Lemma failed_read_keeps_measurements_witness :
  read timeout_ex fuel_ex Variant integerExtractData warm line_idle
  = Ret (Some NoSignalError, warm) (later line_idle 16002 (handshake_events 4))
  /\ Measurements timeout_ex fuel_ex Variant integerExtractData warm line_idle
     = Ret ((215, 480, Some NoSignalError), warm)
           (later line_idle 16003 (EvSet 4 true :: handshake_events 4))
  /\ (warm = warm /\ failed_read_kind NoSignalError)
  /\ (temperature warm = 215 /\ humidity warm = 480
      /\ failed_read_kind NoSignalError).
Proof.
  assert (Hread : read timeout_ex fuel_ex Variant integerExtractData warm line_idle
                  = Ret (Some NoSignalError, warm)
                        (later line_idle 16002 (handshake_events 4)))
    by (vm_compute; reflexivity).
  assert (Hm : Measurements timeout_ex fuel_ex Variant integerExtractData warm line_idle
               = Ret ((215, 480, Some NoSignalError), warm)
                     (later line_idle 16003 (EvSet 4 true :: handshake_events 4)))
    by (vm_compute; reflexivity).
  split; [exact Hread|]. split; [exact Hm|]. split.
  - exact (proj1 (failed_read_keeps_measurements timeout_ex fuel_ex Variant
                    integerExtractData ltac:(fixture_bounds) ltac:(fixture_bounds)
                    warm warm line_idle _ NoSignalError) Hread).
  - exact (proj2 (failed_read_keeps_measurements timeout_ex fuel_ex Variant
                    integerExtractData ltac:(fixture_bounds) ltac:(fixture_bounds)
                    warm warm line_idle _ NoSignalError) 215 480 Hm).
Defined.

Lemma waitForDataTransmission_stops_at_first_timeout_witness :
  0 <= timeout_ex < 65536
  /\ (Z.to_nat timeout_ex < fuel_ex)%nat
  /\ exists c1 w1,
      expectChange timeout_ex fuel_ex 4 true line_idle = Ret c1 w1
      /\ ((c1 = timeout_ex
           /\ waitForDataTransmission timeout_ex fuel_ex 4 line_idle
              = Ret (Some NoSignalError) w1)
          \/ (c1 <> timeout_ex /\ exists c2 w2,
                expectChange timeout_ex fuel_ex 4 false w1 = Ret c2 w2
                /\ ((c2 = timeout_ex
                     /\ waitForDataTransmission timeout_ex fuel_ex 4 line_idle
                        = Ret (Some NoSignalError) w2)
                    \/ (c2 <> timeout_ex /\ exists c3 w3,
                          expectChange timeout_ex fuel_ex 4 true w2 = Ret c3 w3
                          /\ ((c3 = timeout_ex
                               /\ waitForDataTransmission timeout_ex fuel_ex 4 line_idle
                                  = Ret (Some NoSignalError) w3)
                              \/ (c3 <> timeout_ex
                                  /\ waitForDataTransmission timeout_ex fuel_ex 4
                                       line_idle
                                     = Ret None w3
                                  /\ waitForDataTransmission_three_waits timeout_ex
                                       fuel_ex 4 line_idle
                                     = Ret None w3)))))).
Proof.
  split; [fixture_bounds|]. split; [fixture_bounds|].
  apply (waitForDataTransmission_stops_at_first_timeout timeout_ex fuel_ex);
    fixture_bounds.
Defined.

Lemma decoding_indices_in_bounds_witness :
  (wrap8 (39 * 2) = 2 * 39
   /\ wrap8 (wrap8 (39 * 2) + 1) = 2 * 39 + 1
   /\ 2 * 39 + 1 < 80
   /\ Z.shiftr 39 3 = 39 / 8
   /\ 0 <= 39 / 8 < 5)
  /\ (exists e buf',
        extractData timeout_ex (pairs_of [25; 0; 60; 0; 85]) (replicate 5 0) line_idle
        = Ret (e, buf') line_idle
        /\ length buf' = 5%nat)
  /\ (exists signals w',
        receiveSignals timeout_ex fuel_ex Variant warm (replicate 80 0) line_idle
        = Ret signals w'
        /\ length signals = 80%nat).
Proof.
  destruct (decoding_indices_in_bounds timeout_ex fuel_ex Variant
              ltac:(fixture_bounds) ltac:(fixture_bounds))
    as (Hindex & Hdecode & Hreceive).
  split; [apply Hindex; lia|].
  split; [apply Hdecode; reflexivity | apply Hreceive; reflexivity].
Defined.

(** ** Further properties *)

(** *** The checksum on damaged and on short buffers *)

(** X1. Replacing any one byte of a buffer that passes the checksum by a
    different 8-bit value gives a buffer that fails it. *)
Theorem isValid_detects_one_changed_byte
        (buf : list Z) (k : nat) (x y : Z) (w : World) :
  length buf = 5%nat ->
  Forall is_uint8 buf ->
  is_uint8 x ->
  buf !! k = Some y ->
  x <> y ->
  isValid buf w = Ret true w ->
  isValid (<[k := x]> buf) w = Ret false w.
Proof.
  intros Hlen Hbytes Hx Hk Hne Hvalid.
  destruct buf as [|b0 [|b1 [|b2 [|b3 [|b4 [|]]]]]]; try discriminate.
  rewrite isValid_eval, wrap8_sum4 in Hvalid.
  injection Hvalid as Hvalid. apply Z.eqb_eq in Hvalid.
  repeat match goal with
         | H : Forall _ (_ :: _) |- _ => apply Forall_cons in H as [? H]
         end.
  unfold is_uint8 in *.
  destruct k as [|[|[|[|[|k]]]]]; cbn in Hk; try discriminate;
    injection Hk as <-; cbn [insert list_insert];
    rewrite isValid_eval, wrap8_sum4; f_equal; apply Z.eqb_neq;
    intros Heq; apply Hne; revert Hvalid Heq; Z.div_mod_to_equations; lia.
Qed.

(** X2. The checksum validation indexes the first five bytes: on a shorter
    slice it panics, on a longer one it returns what it returns on the first
    five bytes. *)
Theorem isValid_bounds (buf : list Z) (w : World) :
  ((length buf < 5)%nat -> isValid buf w = Panic)
  /\ ((5 <= length buf)%nat ->
      isValid buf w = isValid (take 5 buf) w
      /\ exists v, isValid buf w = Ret v w).
Proof.
  destruct buf as [|b0 [|b1 [|b2 [|b3 [|b4 rest]]]]]; cbn [length];
    (split; [intros Hlt | intros Hge]); try lia; try reflexivity.
  split; [reflexivity | eexists; reflexivity].
Qed.

(** *** The decoder: the bytes it yields, and slices that are too short *)

Lemma bind_Panic {A B} (m : M A) (k : A -> M B) (w : World) :
  m w = Panic -> (m ≫= k) w = Panic.
Proof. intros H. unfold mbind, M_bind. now rewrite H. Qed.

Lemma assign_out_of_range (s : list Z) (i x : Z) (w : World) :
  (length s <= Z.to_nat i)%nat -> assign s i x w = Panic.
Proof.
  intros Hlen. unfold assign. destruct (i <? 0); [reflexivity|].
  destruct (Z.to_nat i <? length s)%nat eqn:E; [|reflexivity].
  apply Nat.ltb_lt in E. lia.
Qed.

Lemma index_out_of_range (s : list Z) (i : Z) (w : World) :
  (length s <= Z.to_nat i)%nat -> index s i w = Panic.
Proof.
  intros Hlen. unfold index. destruct (i <? 0); [reflexivity|].
  now rewrite (proj2 (lookup_ge_None s (Z.to_nat i)) Hlen).
Qed.

Lemma uint8_bits_eq (x y : Z) :
  is_uint8 x -> is_uint8 y ->
  (forall t, (t < 8)%nat -> Z.testbit x (Z.of_nat t) = Z.testbit y (Z.of_nat t)) ->
  x = y.
Proof.
  unfold is_uint8. intros Hx Hy Hbits.
  apply Z.bits_inj'. intros n Hn.
  destruct (Z.lt_ge_cases n 8) as [Hlt|Hge].
  - specialize (Hbits (Z.to_nat n) ltac:(lia)). now rewrite Z2Nat.id in Hbits by lia.
  - rewrite <- (Z.mod_small x (2 ^ 8)), <- (Z.mod_small y (2 ^ 8)) by (cbn; lia).
    now rewrite !Z.mod_pow2_bits_high by lia.
Qed.

Lemma bits_decoded_payload (signals buf payload : list Z) :
  length signals = 80%nat ->
  length payload = 5%nat ->
  Forall is_uint8 payload ->
  spells signals payload ->
  bits_decoded signals buf 40 ->
  buf = payload.
Proof.
  intros Hs Hp Hbytes Hspell (Hlen & Hrange & Hbits).
  apply list_eq. intros j.
  destruct (Nat.lt_ge_cases j 5) as [Hj|Hj];
    [|now rewrite !(proj2 (lookup_ge_None _ _)) by lia].
  destruct (lookup_lt_is_Some_2 buf j) as [b' Hb']; [lia|].
  destruct (lookup_lt_is_Some_2 payload j) as [b Hb]; [lia|].
  rewrite Hb', Hb. f_equal.
  apply uint8_bits_eq;
    [apply (Hrange j); [lia | exact Hb']
    | exact (proj1 (Forall_lookup _ _) Hbytes j b Hb) |].
  intros t Ht.
  assert (Hdiv : ((8 * j + (7 - t)) / 8 = j)%nat).
  { symmetry. apply (Nat.div_unique _ 8 j (7 - t)); lia. }
  assert (Hmod : ((8 * j + (7 - t)) mod 8 = 7 - t)%nat).
  { symmetry. apply (Nat.mod_unique _ 8 j (7 - t)); lia. }
  destruct (lookup_lt_is_Some_2 signals (2 * (8 * j + (7 - t)))) as [low Hlow]; [lia|].
  destruct (lookup_lt_is_Some_2 signals (2 * (8 * j + (7 - t)) + 1)) as [high Hhigh]; [lia|].
  destruct (Hbits (8 * j + (7 - t))%nat low high) as (b0 & Hb0 & Hbit);
    [lia | assumption..|].
  rewrite Hdiv, Hb' in Hb0. injection Hb0 as <-.
  rewrite Hdiv in Hbit.
  replace (Nat.min 40 (8 * j + 8) - 1 - (8 * j + (7 - t)))%nat with t in Hbit by lia.
  pose proof (Hspell (8 * j + (7 - t))%nat low high b ltac:(lia) Hlow Hhigh) as Hsp.
  rewrite Hdiv, Hmod in Hsp. specialize (Hsp Hb).
  replace (7 - (7 - t))%nat with t in Hsp by lia.
  rewrite Hbit, Z.gtb_ltb.
  destruct (Z.testbit b (Z.of_nat t)).
  - apply Z.ltb_lt. now apply Hsp.
  - apply Z.ltb_ge. destruct (Z.lt_ge_cases low high) as [Hlt|]; [|lia].
    apply Hsp in Hlt. discriminate.
Qed.

Section DecodingFurther.

Variable timeout : Z.

Local Abbreviation extractData_loop := (Dht.extractData_loop timeout).
Local Abbreviation extractData := (Dht.extractData timeout).

(** X5. When 80 tick counts without the sentinel spell five bytes, the
    decoder returns exactly these five bytes, whatever the buffer held. *)
Theorem extractData_yields_payload (signals payload buf : list Z) (w : World) :
  length signals = 80%nat ->
  length buf = 5%nat ->
  length payload = 5%nat ->
  Forall is_uint8 payload ->
  (forall s, s ∈ signals -> s <> timeout) ->
  spells signals payload ->
  extractData signals buf w = Ret (None, payload) w.
Proof.
  intros Hs Hb Hp Hbytes Hclean Hspell.
  destruct (extractData_loop_decodes timeout signals 40 0 buf w)
    as (buf' & Hrun & Hinv);
    [reflexivity | assumption | assumption | now apply bits_decoded_init |].
  change (Z.of_nat 0) with 0 in Hrun.
  unfold Dht.extractData. rewrite Hrun. do 2 f_equal.
  now apply (bits_decoded_payload signals).
Qed.

Lemma extractData_loop_short (signals : list Z) (n : nat) :
  forall (k : nat) (buf : list Z) (w : World),
    (k + n = 40)%nat ->
    (forall s, s ∈ signals -> s <> timeout) ->
    (length signals < 80)%nat \/ (length buf < 5)%nat ->
    (2 * k <= length signals)%nat ->
    (k <= 8 * length buf)%nat ->
    extractData_loop n (Z.of_nat k) signals buf w = Panic.
Proof.
  induction n as [|n IH]; intros k buf w Hk Hclean Hshort Hsig Hbuf; [lia|].
  destruct (loop_index_facts k) as (E0 & E1 & Enext & Ebyte); [lia|].
  destruct (Nat.le_gt_cases (length signals) (2 * k)) as [Hno|Hlow].
  { cbn [Dht.extractData_loop]. rewrite E1, E0.
    apply bind_Panic, index_out_of_range. lia. }
  destruct (lookup_lt_is_Some_2 signals (2 * k)) as [low Hl]; [lia|].
  destruct (Nat.le_gt_cases (length signals) (2 * k + 1)) as [Hno|Hhigh].
  { cbn [Dht.extractData_loop]. rewrite E1, E0.
    erewrite bind_Ret by (apply index_lookup; [lia | rewrite Nat2Z.id; exact Hl]).
    apply bind_Panic, index_out_of_range. lia. }
  destruct (lookup_lt_is_Some_2 signals (2 * k + 1)) as [high Hh]; [lia|].
  assert (Hl' : low <> timeout) by (apply Hclean; eapply list_elem_of_lookup_2; eauto).
  assert (Hh' : high <> timeout) by (apply Hclean; eapply list_elem_of_lookup_2; eauto).
  apply Z.eqb_neq in Hl', Hh'.
  pose proof (Nat.div_mod_eq k 8). pose proof (Nat.mod_upper_bound k 8 ltac:(lia)).
  destruct (Nat.le_gt_cases (length buf) (k / 8)) as [Hnob|Hbyte].
  { cbn [Dht.extractData_loop]. rewrite E1, E0, Ebyte.
    erewrite bind_Ret by (apply index_lookup; [lia | rewrite Nat2Z.id; exact Hl]).
    erewrite bind_Ret by (apply index_lookup; [lia | rewrite Nat2Z.id; exact Hh]).
    rewrite Hl', Hh'. cbn [orb].
    apply bind_Panic, index_out_of_range. lia. }
  destruct (lookup_lt_is_Some_2 buf (k / 8)) as [b Hb]; [lia|].
  rewrite (extractData_loop_step timeout n k signals buf w low high b)
    by (assumption || lia).
  rewrite Hl', Hh'. cbn [orb].
  apply IH; rewrite ?length_insert; (assumption || lia).
Qed.

(** X6. On fewer than 80 tick counts, or into a buffer of fewer than 5
    bytes, the decoder panics with an index out of range, unless a sentinel
    among the counts stops it first. *)
Theorem extractData_short_panics (signals buf : list Z) (w : World) :
  (forall s, s ∈ signals -> s <> timeout) ->
  (length signals < 80)%nat \/ (length buf < 5)%nat ->
  extractData signals buf w = Panic.
Proof.
  intros Hclean Hshort.
  apply (extractData_loop_short signals 40 0); (assumption || lia).
Qed.

End DecodingFurther.

Section Further.

Variable timeout : Z.
Variable fuel : nat.
Variable DeviceType : Type.
Variable variantExtractData : DeviceType -> list Z -> Z * Z.

Hypothesis timeout_uint16 : 0 <= timeout < 65536.
Hypothesis enough_fuel : (Z.to_nat timeout < fuel)%nat.

Local Abbreviation expectChange := (Dht.expectChange timeout fuel).
Local Abbreviation waitForDataTransmission := (Dht.waitForDataTransmission timeout fuel).
Local Abbreviation receiveSignals_loop := (Dht.receiveSignals_loop timeout fuel).
Local Abbreviation receiveSignals := (Dht.receiveSignals timeout fuel DeviceType).
Local Abbreviation extractData_loop := (Dht.extractData_loop timeout).
Local Abbreviation extractData := (Dht.extractData timeout).
Local Abbreviation read := (Dht.read timeout fuel DeviceType variantExtractData).
Local Abbreviation Measurements :=
  (Dht.Measurements timeout fuel DeviceType variantExtractData).
Local Abbreviation ReadMeasurements :=
  (Dht.ReadMeasurements timeout fuel DeviceType variantExtractData).

Ltac run_with H := erewrite (bind_Ret _ _ _ _ _ H).
Ltac run_in H Hrun := erewrite (bind_Ret _ _ _ _ _ H) in Hrun.

(** *** The pulse sampler on a known line *)

Lemma expectChange_sampled (p : Pin) (oldState : bool) (w : World) :
  exists c,
    expectChange p oldState w = Ret c (advance (S (Z.to_nat c)) w)
    /\ 0 <= c <= timeout
    /\ (forall k, (k < Z.to_nat c)%nat -> upcoming w k = oldState)
    /\ (c < timeout -> upcoming w (Z.to_nat c) = negb oldState).
Proof. exact (expectChange_returns timeout fuel timeout_uint16 enough_fuel p oldState w). Qed.

Lemma expectChange_first_departure (p : Pin) (oldState : bool) (w : World) (a : nat) :
  (forall k, (k < a)%nat -> upcoming w k = oldState) ->
  upcoming w a = negb oldState ->
  Z.of_nat a < timeout ->
  expectChange p oldState w = Ret (Z.of_nat a) (advance (S a) w).
Proof.
  intros Hrun Hdep Ha.
  destruct (expectChange_sampled p oldState w) as (c & Hc & Hrange & Hsame & Hdiff).
  assert (Heq : c = Z.of_nat a).
  { destruct (Z.lt_trichotomy c (Z.of_nat a)) as [Hlt | [Heq | Hgt]]; [|exact Heq|].
    - specialize (Hdiff ltac:(lia)). rewrite Hrun in Hdiff by lia.
      destruct oldState; discriminate.
    - specialize (Hsame a ltac:(lia)). rewrite Hdep in Hsame.
      destruct oldState; discriminate. }
  subst c. now rewrite Nat2Z.id in Hc.
Qed.

Lemma expectChange_no_departure (p : Pin) (oldState : bool) (w : World) :
  (forall k, (k < Z.to_nat timeout)%nat -> upcoming w k = oldState) ->
  expectChange p oldState w = Ret timeout (advance (S (Z.to_nat timeout)) w).
Proof.
  intros Hrun.
  destruct (expectChange_sampled p oldState w) as (c & Hc & Hrange & Hsame & Hdiff).
  assert (Heq : c = timeout).
  { destruct (Z.eq_dec c timeout) as [|Hne]; [assumption|].
    specialize (Hdiff ltac:(lia)). rewrite Hrun in Hdiff by lia.
    destruct oldState; discriminate. }
  now subst c.
Qed.

Lemma expectChange_world (p : Pin) (oldState : bool) (w : World) :
  exists c w',
    expectChange p oldState w = Ret c w'
    /\ 0 <= c <= timeout
    /\ reads_within w w' 1 (timeout + 1).
Proof.
  destruct (expectChange_sampled p oldState w) as (c & Hc & Hrange & _).
  exists c, (advance (S (Z.to_nat c)) w). split; [exact Hc|]. split; [exact Hrange|].
  unfold reads_within, advance; cbn [levels trace reads]. repeat split; lia.
Qed.

Lemma reads_within_trans (w w1 w2 : World) (lo1 hi1 lo2 hi2 : Z) :
  reads_within w w1 lo1 hi1 -> reads_within w1 w2 lo2 hi2 ->
  reads_within w w2 (lo1 + lo2) (hi1 + hi2).
Proof.
  unfold reads_within. intros (Hl1 & Ht1 & Hr1) (Hl2 & Ht2 & Hr2).
  repeat split; try congruence; lia.
Qed.

Lemma reads_within_weaken (w w' : World) (lo hi lo' hi' : Z) :
  reads_within w w' lo hi -> lo' <= lo -> hi <= hi' -> reads_within w w' lo' hi'.
Proof. unfold reads_within. intros (Hl & Ht & Hr) Hlo Hhi. repeat split; try assumption; lia. Qed.

(** *** The transmission wait on a known line *)

Lemma upcoming_advance (w : World) (n k : nat) :
  upcoming (advance n w) k = upcoming w (n + k).
Proof. unfold upcoming, advance; cbn. f_equal. lia. Qed.

(** X3. The transmission wait succeeds exactly on a line that shows the
    three transitions of the acknowledgement, each after fewer than
    [timeout] samples, and it then has read the pin up to the sample that
    ends the third wait and no further. *)
Theorem waitForDataTransmission_accepts (p : Pin) (w : World) :
  (forall a b c,
      handshake_seen w a b c ->
      Z.of_nat a < timeout -> Z.of_nat b < timeout -> Z.of_nat c < timeout ->
      waitForDataTransmission p w = Ret None (advance (a + b + c + 3) w))
  /\ (forall w',
        waitForDataTransmission p w = Ret None w' ->
        exists a b c,
          handshake_seen w a b c
          /\ Z.of_nat a < timeout /\ Z.of_nat b < timeout /\ Z.of_nat c < timeout
          /\ w' = advance (a + b + c + 3) w).
Proof.
  split.
  - intros a b c (Ha & Ha' & Hb & Hb' & Hc & Hc') Hat Hbt Hct.
    unfold Dht.waitForDataTransmission.
    erewrite bind_Ret by (apply (expectChange_first_departure p true w a); assumption).
    destruct (Z.of_nat a =? timeout) eqn:E; [apply Z.eqb_eq in E; lia|clear E].
    erewrite bind_Ret.
    2:{ apply (expectChange_first_departure p false _ b); [| |assumption].
        - intros k Hk. rewrite upcoming_advance.
          replace (S a + k)%nat with (a + 1 + k)%nat by lia. now apply Hb.
        - rewrite upcoming_advance.
          replace (S a + b)%nat with (a + 1 + b)%nat by lia. exact Hb'. }
    destruct (Z.of_nat b =? timeout) eqn:E; [apply Z.eqb_eq in E; lia|clear E].
    erewrite bind_Ret.
    2:{ apply (expectChange_first_departure p true _ c); [| |assumption].
        - intros k Hk. rewrite !upcoming_advance.
          replace (S a + (S b + k))%nat with (a + b + 2 + k)%nat by lia. now apply Hc.
        - rewrite !upcoming_advance.
          replace (S a + (S b + c))%nat with (a + b + 2 + c)%nat by lia. exact Hc'. }
    destruct (Z.of_nat c =? timeout) eqn:E; [apply Z.eqb_eq in E; lia|clear E].
    rewrite !advance_advance. cbn. do 2 f_equal. lia.
  - intros w' Hrun. unfold Dht.waitForDataTransmission in Hrun.
    destruct (expectChange_sampled p true w) as (c1 & H1 & R1 & S1 & D1).
    run_in H1 Hrun.
    destruct (c1 =? timeout) eqn:E1; [discriminate|apply Z.eqb_neq in E1].
    destruct (expectChange_sampled p false (advance (S (Z.to_nat c1)) w))
      as (c2 & H2 & R2 & S2 & D2).
    run_in H2 Hrun.
    destruct (c2 =? timeout) eqn:E2; [discriminate|apply Z.eqb_neq in E2].
    destruct (expectChange_sampled p true
                (advance (S (Z.to_nat c2)) (advance (S (Z.to_nat c1)) w)))
      as (c3 & H3 & R3 & S3 & D3).
    run_in H3 Hrun.
    destruct (c3 =? timeout) eqn:E3; [discriminate|apply Z.eqb_neq in E3].
    injection Hrun as <-.
    exists (Z.to_nat c1), (Z.to_nat c2), (Z.to_nat c3).
    split; [|repeat split; try lia;
             rewrite !advance_advance; f_equal; lia].
    specialize (D1 ltac:(lia)). specialize (D2 ltac:(lia)). specialize (D3 ltac:(lia)).
    rewrite upcoming_advance in D2. rewrite !upcoming_advance in D3.
    cbn [negb] in D1, D2, D3.
    repeat split.
    + exact S1.
    + exact D1.
    + intros k Hk. specialize (S2 k Hk). rewrite upcoming_advance in S2.
      rewrite <- S2. f_equal. lia.
    + rewrite <- D2. f_equal. lia.
    + intros k Hk. specialize (S3 k Hk). rewrite !upcoming_advance in S3.
      rewrite <- S3. f_equal. lia.
    + rewrite <- D3. f_equal. lia.
Qed.

Lemma waitForDataTransmission_world (p : Pin) (w : World) :
  exists e w',
    waitForDataTransmission p w = Ret e w'
    /\ (e = None \/ e = Some NoSignalError)
    /\ reads_within w w' 1 (3 * (timeout + 1)).
Proof.
  unfold Dht.waitForDataTransmission.
  destruct (expectChange_world p true w) as (c1 & w1 & H1 & _ & W1). run_with H1.
  destruct (c1 =? timeout);
    [do 2 eexists; split; [reflexivity|]; split; [auto|];
     eapply reads_within_weaken; [exact W1 | lia | lia]|].
  destruct (expectChange_world p false w1) as (c2 & w2 & H2 & _ & W2). run_with H2.
  pose proof (reads_within_trans _ _ _ _ _ _ _ W1 W2) as W12.
  destruct (c2 =? timeout);
    [do 2 eexists; split; [reflexivity|]; split; [auto|];
     eapply reads_within_weaken; [exact W12 | lia | lia]|].
  destruct (expectChange_world p true w2) as (c3 & w3 & H3 & _ & W3). run_with H3.
  pose proof (reads_within_trans _ _ _ _ _ _ _ W12 W3) as W123.
  destruct (c3 =? timeout);
    (do 2 eexists; split; [reflexivity|]; split; [auto|];
     eapply reads_within_weaken; [exact W123 | lia | lia]).
Qed.

Lemma waitForDataTransmission_constant_line (p : Pin) (w : World) (l : bool) :
  (forall k, upcoming w k = l) ->
  exists w', waitForDataTransmission p w = Ret (Some NoSignalError) w'.
Proof.
  intros Hconst. unfold Dht.waitForDataTransmission.
  destruct l.
  - erewrite bind_Ret by (apply expectChange_no_departure; intros; apply Hconst).
    rewrite Z.eqb_refl. eexists; reflexivity.
  - destruct (expectChange_sampled p true w) as (c1 & H1 & _). run_with H1.
    destruct (c1 =? timeout); [eexists; reflexivity|].
    erewrite bind_Ret
      by (apply expectChange_no_departure; intros; rewrite upcoming_advance; apply Hconst).
    rewrite Z.eqb_refl. eexists; reflexivity.
Qed.

(** *** Signal reception *)

Lemma receiveSignals_loop_counts (p : Pin) (n : nat) :
  forall (k : nat) (result : list Z) (w : World),
    (k + n = 40)%nat -> length result = 80%nat ->
    exists result' w',
      receiveSignals_loop n (Z.of_nat k) p result w = Ret result' w'
      /\ length result' = 80%nat
      /\ (forall j, (j < 2 * k)%nat -> result' !! j = result !! j)
      /\ (forall j c, (2 * k <= j)%nat -> result' !! j = Some c -> 0 <= c <= timeout)
      /\ reads_within w w' (2 * Z.of_nat n) (2 * Z.of_nat n * (timeout + 1)).
Proof.
  induction n as [|n IH]; intros k result w Hk Hlen.
  - exists result, w. split; [reflexivity|]. split; [exact Hlen|].
    split; [reflexivity|]. split.
    + intros j c Hj Hc. apply lookup_lt_Some in Hc. lia.
    + unfold reads_within. repeat split; lia.
  - destruct (loop_index_facts k) as (E0 & E1 & Enext & _); [lia|].
    cbn [Dht.receiveSignals_loop]. rewrite E1, E0, Enext.
    destruct (expectChange_world p false w) as (c & w1 & Hc & Rc & W1). run_with Hc.
    erewrite bind_Ret by (apply assign_in_range; lia).
    destruct (expectChange_world p true w1) as (c' & w2 & Hc' & Rc' & W2). run_with Hc'.
    erewrite bind_Ret by (apply assign_in_range; rewrite ?length_insert; lia).
    rewrite !Nat2Z.id.
    destruct (IH (S k) (<[(2 * k + 1)%nat := c']> (<[(2 * k)%nat := c]> result)) w2)
      as (result' & w' & Hrun & Hlen' & Hkeep & Hcounts & W3);
      [lia | now rewrite !length_insert |].
    exists result', w'. split; [exact Hrun|]. split; [exact Hlen'|]. split; [|split].
    + intros j Hj. rewrite Hkeep by lia.
      now rewrite !list_lookup_insert_ne by lia.
    + intros j x Hj Hx.
      destruct (Nat.eq_dec j (2 * k)%nat) as [->|Hj0];
        [|destruct (Nat.eq_dec j (2 * k + 1)%nat) as [->|Hj1];
          [|apply (Hcounts j x); [lia | exact Hx]]].
      * rewrite Hkeep in Hx by lia.
        rewrite list_lookup_insert_ne, list_lookup_insert_eq in Hx by lia.
        now injection Hx as <-.
      * rewrite Hkeep in Hx by lia.
        rewrite list_lookup_insert_eq in Hx by (rewrite length_insert; lia).
        now injection Hx as <-.
    + pose proof (reads_within_trans _ _ _ _ _ _ _
                    (reads_within_trans _ _ _ _ _ _ _ W1 W2) W3) as W.
      eapply reads_within_weaken; [exact W | lia | nia].
Qed.

Lemma receiveSignals_loop_overwrites (p : Pin) (n : nat) :
  forall (k : nat) (r1 r2 : list Z) (w : World),
    (k + n = 40)%nat -> length r1 = 80%nat -> length r2 = 80%nat ->
    (forall j, (j < 2 * k)%nat -> r1 !! j = r2 !! j) ->
    receiveSignals_loop n (Z.of_nat k) p r1 w
    = receiveSignals_loop n (Z.of_nat k) p r2 w.
Proof.
  induction n as [|n IH]; intros k r1 r2 w Hk Hlen1 Hlen2 Hagree.
  - cbn. f_equal. apply list_eq. intros j.
    destruct (Nat.lt_ge_cases j 80) as [Hj|Hj]; [apply Hagree; lia|].
    now rewrite !(proj2 (lookup_ge_None _ _)) by lia.
  - destruct (loop_index_facts k) as (E0 & E1 & Enext & _); [lia|].
    cbn [Dht.receiveSignals_loop]. rewrite E1, E0, Enext.
    destruct (expectChange_world p false w) as (c & w1 & Hc & _). run_with Hc. run_with Hc.
    do 2 erewrite (bind_Ret (assign _ _ _)) by (apply assign_in_range; lia).
    destruct (expectChange_world p true w1) as (c' & w2 & Hc' & _). run_with Hc'. run_with Hc'.
    do 2 erewrite (bind_Ret (assign _ _ _))
      by (apply assign_in_range; rewrite ?length_insert; lia).
    rewrite !Nat2Z.id.
    apply IH; [lia | now rewrite !length_insert | now rewrite !length_insert |].
    intros j Hj.
    destruct (Nat.eq_dec j (2 * k + 1)%nat) as [->|Hj1].
    { now rewrite !list_lookup_insert_eq by (rewrite length_insert; lia). }
    rewrite !(list_lookup_insert_ne _ (2 * k + 1)%nat) by lia.
    destruct (Nat.eq_dec j (2 * k)%nat) as [->|Hj0].
    { now rewrite !list_lookup_insert_eq by lia. }
    rewrite !list_lookup_insert_ne by lia. apply Hagree. lia.
Qed.


Lemma receiveSignals_loop_short (p : Pin) (n : nat) :
  forall (k : nat) (result : list Z) (w : World),
    (k + n = 40)%nat ->
    (length result < 80)%nat ->
    (2 * k <= length result)%nat ->
    receiveSignals_loop n (Z.of_nat k) p result w = Panic.
Proof.
  induction n as [|n IH]; intros k result w Hk Hshort Hsofar; [lia|].
  destruct (loop_index_facts k) as (E0 & E1 & Enext & _); [lia|].
  cbn [Dht.receiveSignals_loop]. rewrite E1, E0, Enext.
  destruct (expectChange_world p false w) as (c & w1 & Hc & _). run_with Hc.
  destruct (Nat.le_gt_cases (length result) (2 * k)) as [Hno|Hfirst].
  { apply bind_Panic, assign_out_of_range. lia. }
  erewrite bind_Ret by (apply assign_in_range; lia).
  destruct (expectChange_world p true w1) as (c' & w2 & Hc' & _). run_with Hc'.
  destruct (Nat.le_gt_cases (length result) (2 * k + 1)) as [Hno|Hsecond].
  { apply bind_Panic, assign_out_of_range. rewrite length_insert. lia. }
  erewrite bind_Ret by (apply assign_in_range; rewrite ?length_insert; lia).
  apply IH; rewrite ?length_insert; lia.
Qed.

(** X7. A reception into an array of fewer than 80 counts panics with an
    index out of range. *)
Theorem receiveSignals_short_panics
        (t : device DeviceType) (result : list Z) (w : World) :
  (length result < 80)%nat -> receiveSignals t result w = Panic.
Proof.
  intros Hshort. unfold Dht.receiveSignals.
  erewrite bind_Ret by reflexivity.
  apply bind_Panic.
  apply (receiveSignals_loop_short (pin t) 40 0); lia.
Qed.

Lemma receiveSignals_world (t : device DeviceType) (result : list Z) (w : World) :
  length result = 80%nat ->
  exists signals w',
    receiveSignals t result w = Ret signals w'
    /\ levels w' = levels w
    /\ trace w' = reception_events ++ trace w
    /\ Z.of_nat (reads w) + 80 <= Z.of_nat (reads w')
       <= Z.of_nat (reads w) + 80 * (timeout + 1).
Proof.
  intros Hlen.
  destruct (receiveSignals_loop_counts (pin t) 40 0 result
              (mkWorld (levels w) (reads w) (EvInterruptDisable :: trace w)))
    as (signals & w1 & H1 & _ & _ & _ & (Hl & Ht & Hr));
    [reflexivity | exact Hlen |].
  cbn [levels reads trace] in Hl, Ht, Hr.
  exists signals, (mkWorld (levels w1) (reads w1) (EvInterruptEnable :: trace w1)).
  split.
  - unfold Dht.receiveSignals. erewrite bind_Ret by reflexivity.
    change (Z.of_nat 0) with 0 in H1. run_with H1. reflexivity.
  - cbn [levels reads trace]. rewrite Ht. repeat split; try assumption; lia.
Qed.

(** *** One read cycle, stage by stage *)

Lemma read_world (t t' : device DeviceType) (w w' : World) (e : error) :
  read t w = Ret (e, t') w' ->
  levels w' = levels w
  /\ trace w'
     = reception_trace e ++ handshake_events (pin t) ++ trace w
  /\ Z.of_nat (reads w) + 1 <= Z.of_nat (reads w')
     <= Z.of_nat (reads w) + 83 * (timeout + 1).
Proof.
  intros Hread.
  destruct (read_cases timeout fuel DeviceType variantExtractData
              timeout_uint16 enough_fuel t w)
    as (w0 & e1 & w1 & Hinit & Hwait & H).
  injection Hinit as <-.
  destruct (waitForDataTransmission_world (pin t)
              (mkWorld (levels w) (reads w)
                 (EvConfigure (pin t) PinInput :: EvHigh (pin t)
                  :: EvSleep startingLow :: EvLow (pin t)
                  :: EvConfigure (pin t) PinOutput :: trace w)))
    as (e1' & w1' & Hwait' & _ & (Hl1 & Ht1 & Hr1)).
  rewrite Hwait in Hwait'. injection Hwait' as <- <-.
  cbn [levels reads trace] in Hl1, Ht1, Hr1.
  destruct e1 as [e0|].
  { destruct H as [-> H]. rewrite H in Hread. injection Hread as <- <- <-.
    split; [exact Hl1|]. split; [exact Ht1 | lia]. }
  destruct H as (signals & w2 & e2 & buf & Hrecv & _ & _ & _ & H).
  destruct (receiveSignals_world t (replicate 80 0) w1)
    as (signals' & w2' & Hrecv' & Hl2 & Ht2 & Hr2); [apply length_replicate|].
  rewrite Hrecv in Hrecv'. injection Hrecv' as <- <-.
  assert (Hw : levels w2 = levels w
               /\ trace w2 = reception_events ++ handshake_events (pin t) ++ trace w
               /\ Z.of_nat (reads w) + 1 <= Z.of_nat (reads w2)
                  <= Z.of_nat (reads w) + 83 * (timeout + 1)).
  { split; [congruence|]. split; [rewrite Ht2, Ht1; reflexivity | lia]. }
  destruct e2 as [e0|].
  { destruct H as [-> H]. rewrite H in Hread. injection Hread as <- <- <-.
    exact Hw. }
  destruct H as (valid & _ & H). rewrite H in Hread.
  destruct valid; injection Hread as <- <- <-; exact Hw.
Qed.

(** X8. A read that succeeds has gone through every stage: the sensor
    acknowledged, the 80 counts hold no sentinel, the bytes decoded from
    them pass the checksum, and the values stored are the variant's decoding
    of exactly these bytes; the pin, the variant and the initialized flag of
    the device are as before. *)
Theorem read_success_from_valid_buffer (t t' : device DeviceType) (w w' : World) :
  read t w = Ret (None, t') w' ->
  exists signals buf w1,
    waitForDataTransmission (pin t)
      (mkWorld (levels w) (reads w) (handshake_events (pin t) ++ trace w))
    = Ret None w1
    /\ receiveSignals t (replicate 80 0) w1 = Ret signals w'
    /\ (forall s, s ∈ signals -> s <> timeout)
    /\ extractData signals (replicate 5 0) w' = Ret (None, buf) w'
    /\ isValid buf w' = Ret true w'
    /\ (temperature t', humidity t') = variantExtractData (measurements t) buf
    /\ pin t' = pin t
    /\ measurements t' = measurements t
    /\ initialized t' = initialized t.
Proof.
  intros Hread.
  destruct (read_cases timeout fuel DeviceType variantExtractData
              timeout_uint16 enough_fuel t w)
    as (w0 & e1 & w1 & Hinit & Hwait & H).
  injection Hinit as <-.
  destruct e1 as [e0|]; [destruct H as [_ H]; congruence|].
  destruct H as (signals & w2 & e2 & buf & Hrecv & Hlen & Hext & Hlenb & H).
  destruct e2 as [e0|]; [destruct H as [_ H]; congruence|].
  destruct H as (valid & Hvalid & H). rewrite H in Hread.
  destruct valid; [|discriminate]. injection Hread as <- <-.
  exists signals, buf, w1.
  split; [exact Hwait|]. split; [exact Hrecv|]. split.
  { intros s Hin ->. apply list_elem_of_lookup_1 in Hin as [j Hj].
    destruct (extractData_loop_timeout timeout signals 40 0 (replicate 5 0) w2)
      as (buf' & Hbad & _);
      [reflexivity | exact Hlen | apply length_replicate
       | exists j; split; [lia | exact Hj] |].
    change (Z.of_nat 0) with 0 in Hbad. unfold Dht.extractData in Hext.
    rewrite Hbad in Hext. discriminate. }
  split; [exact Hext|]. split; [exact Hvalid|].
  cbn [temperature humidity pin measurements initialized set_measurements].
  split; [now destruct (variantExtractData (measurements t) buf)|]. now repeat split.
Qed.

(** X9. When the sensor acknowledges and the 80 counts received, free of
    sentinels, spell the bytes b0, ..., b4, the read stores the variant's
    decoding of these bytes if b4 is the sum of the other four modulo 256,
    and otherwise fails with ChecksumError and leaves the device as it
    was. *)
Theorem read_decodes_payload
        (t : device DeviceType) (w w1 w2 : World) (signals : list Z)
        (b0 b1 b2 b3 b4 : Z) :
  waitForDataTransmission (pin t)
    (mkWorld (levels w) (reads w) (handshake_events (pin t) ++ trace w))
  = Ret None w1 ->
  receiveSignals t (replicate 80 0) w1 = Ret signals w2 ->
  (forall s, s ∈ signals -> s <> timeout) ->
  Forall is_uint8 [b0; b1; b2; b3; b4] ->
  spells signals [b0; b1; b2; b3; b4] ->
  read t w
  = if b4 =? (b0 + b1 + b2 + b3) mod 256
    then Ret (None,
              set_measurements t
                (fst (variantExtractData (measurements t) [b0; b1; b2; b3; b4]))
                (snd (variantExtractData (measurements t) [b0; b1; b2; b3; b4])))
             w2
    else Ret (Some ChecksumError, t) w2.
Proof.
  intros Hwait Hrecv Hclean Hbytes Hspell.
  destruct (read_cases timeout fuel DeviceType variantExtractData
              timeout_uint16 enough_fuel t w)
    as (w0 & e1 & w1' & Hinit & Hwait' & H).
  injection Hinit as <-.
  change (EvConfigure (pin t) PinInput :: EvHigh (pin t) :: EvSleep startingLow
          :: EvLow (pin t) :: EvConfigure (pin t) PinOutput :: trace w)
    with (handshake_events (pin t) ++ trace w) in Hwait'.
  rewrite Hwait in Hwait'. injection Hwait' as <- <-.
  destruct H as (signals' & w2' & e2 & buf & Hrecv' & Hlen & Hext & Hlenb & H).
  rewrite Hrecv in Hrecv'. injection Hrecv' as <- <-.
  destruct (extractData_loop_decodes timeout signals 40 0 (replicate 5 0) w2)
    as (buf' & Hrun & Hinv);
    [reflexivity | exact Hlen | exact Hclean
     | apply bits_decoded_init, length_replicate |].
  change (Z.of_nat 0) with 0 in Hrun. unfold Dht.extractData in Hext.
  rewrite Hrun in Hext. injection Hext as <- <-.
  assert (Hbuf : buf' = [b0; b1; b2; b3; b4])
    by (now apply (bits_decoded_payload signals)).
  subst buf'.
  destruct H as (valid & Hvalid & H).
  rewrite isValid_eval, wrap8_sum4 in Hvalid. injection Hvalid as <-.
  exact H.
Qed.

(** *** Whole cycles *)

Lemma powerUp_world (p : Pin) (w : World) :
  powerUp p w
  = Ret (levels w (reads w))
        (mkWorld (levels w) (S (reads w))
           (powerUp_events p (levels w (reads w)) ++ trace w)).
Proof.
  unfold powerUp, powerUp_events, mbind, M_bind, pinGet.
  now destruct (levels w (reads w)).
Qed.

Lemma Measurements_world (t : device DeviceType) (w : World) :
  exists temp hum e t' w',
    Measurements t w = Ret ((temp, hum, e), t') w'
    /\ levels w' = levels w
    /\ trace w'
       = EvSet (pin t) (levels w (reads w))
         :: reception_trace e ++ handshake_events (pin t)
         ++ powerUp_events (pin t) (levels w (reads w)) ++ trace w
    /\ Z.of_nat (reads w) + 2 <= Z.of_nat (reads w')
       <= Z.of_nat (reads w) + 1 + 83 * (timeout + 1).
Proof.
  destruct (Measurements_cases timeout fuel DeviceType variantExtractData
              timeout_uint16 enough_fuel t w)
    as (state & w0 & e & t' & w1 & Hpower & Hread & Hm).
  rewrite powerUp_world in Hpower. injection Hpower as <- <-.
  apply read_world in Hread as (Hl & Ht & Hr).
  cbn [levels reads trace] in Hl, Ht, Hr.
  destruct e as [e|]; do 5 eexists; (split; [exact Hm|]);
    cbn [levels reads trace]; (split; [exact Hl|]); (split; [now rewrite Ht | lia]).
Qed.


(** X11. [ReadMeasurements] never waits without bound: it returns after at
    least 2 and at most 1 + 83 * (timeout + 1) pin reads, with the error of
    [Measurements] and the device as that call leaves it. *)
Theorem ReadMeasurements_bounded (t : device DeviceType) (w : World) :
  exists temp hum e t' w',
    Measurements t w = Ret ((temp, hum, e), t') w'
    /\ ReadMeasurements t w = Ret (e, t') w'
    /\ Z.of_nat (reads w) + 2 <= Z.of_nat (reads w')
       <= Z.of_nat (reads w) + 1 + 83 * (timeout + 1).
Proof.
  destruct (Measurements_world t w) as (temp & hum & e & t' & w' & Hm & _ & _ & Hr).
  exists temp, hum, e, t', w'. split; [exact Hm|]. split; [|exact Hr].
  unfold Dht.ReadMeasurements. run_with Hm. reflexivity.
Qed.

(** X12. On a line that never changes level, high or low, a read fails with
    NoSignalError and returns the device unchanged, and [ReadMeasurements]
    fails with NoSignalError and keeps the stored temperature and
    humidity. *)
Theorem constant_line_gives_NoSignal (t : device DeviceType) (w : World) (l : bool) :
  (forall k, upcoming w k = l) ->
  (exists w', read t w = Ret (Some NoSignalError, t) w')
  /\ (exists t' w',
        ReadMeasurements t w = Ret (Some NoSignalError, t') w'
        /\ temperature t' = temperature t
        /\ humidity t' = humidity t).
Proof.
  intros Hconst.
  assert (Hread : forall w0, (forall k, upcoming w0 k = l) ->
            exists w', read t w0 = Ret (Some NoSignalError, t) w').
  { intros w0 Hconst0.
    destruct (read_cases timeout fuel DeviceType variantExtractData
                timeout_uint16 enough_fuel t w0)
      as (w1 & e1 & w2 & Hinit & Hwait & H).
    injection Hinit as <-.
    destruct (waitForDataTransmission_constant_line (pin t)
                (mkWorld (levels w0) (reads w0)
                   (EvConfigure (pin t) PinInput :: EvHigh (pin t)
                    :: EvSleep startingLow :: EvLow (pin t)
                    :: EvConfigure (pin t) PinOutput :: trace w0)) l)
      as (w2' & Hwait'); [exact Hconst0|].
    rewrite Hwait in Hwait'. injection Hwait' as -> ->.
    destruct H as [_ H]. eauto. }
  split; [now apply Hread|].
  destruct (Measurements_cases timeout fuel DeviceType variantExtractData
              timeout_uint16 enough_fuel t w)
    as (state & w0 & e & t' & w1 & Hpower & Hread' & Hm).
  rewrite powerUp_world in Hpower. injection Hpower as <- <-.
  destruct (Hread (mkWorld (levels w) (S (reads w))
                     (powerUp_events (pin t) (levels w (reads w)) ++ trace w)))
    as (w1' & Hr).
  { intros k. specialize (Hconst (S k)). unfold upcoming in *; cbn in *.
    rewrite <- Hconst. f_equal. lia. }
  rewrite Hread' in Hr. injection Hr as -> -> ->.
  do 2 eexists. split.
  - unfold Dht.ReadMeasurements. run_with Hm. reflexivity.
  - split; reflexivity.
Qed.

End Further.

(** *** The two versions of the device *)

Lemma bind_OutOfFuel {A B} (m : M A) (k : A -> M B) (w : World) :
  m w = OutOfFuel -> (m ≫= k) w = OutOfFuel.
Proof. intros H. unfold mbind, M_bind. now rewrite H. Qed.

Ltac on_both H :=
  cbv beta;
  first [ do 2 erewrite (bind_Ret _ _ _ _ _ H)
        | do 2 rewrite (bind_Panic _ _ _ H)
        | do 2 rewrite (bind_OutOfFuel _ _ _ H) ];
  cbv beta.

Section Versions.

Variable timeout : Z.
Variable fuel : nat.
Variable DeviceType : Type.
Variable variantExtractData : DeviceType -> list Z -> Z * Z.

Lemma read_forget (t : device DeviceType) (w : World) :
  Legacy.read timeout fuel DeviceType variantExtractData (forget t) w
  = forget_outcome (Dht.read timeout fuel DeviceType variantExtractData t w).
Proof.
  unfold Legacy.read, Dht.read. cbn [Legacy.pin Legacy.measurements forget].
  change (Legacy.receiveSignals timeout fuel DeviceType (forget t))
    with (Dht.receiveSignals timeout fuel DeviceType t).
  pose (w0 := mkWorld (levels w) (reads w) (handshake_events (pin t) ++ trace w)).
  do 2 erewrite (bind_Ret (initiateCommunication (pin t)) _ w w0 tt) by reflexivity.
  destruct (Dht.waitForDataTransmission timeout fuel (pin t) w0)
    as [[e|] w1| |] eqn:Hwait; on_both Hwait; try reflexivity.
  destruct (Dht.receiveSignals timeout fuel DeviceType t (replicate 80 0) w1)
    as [signals w2| |] eqn:Hrecv; on_both Hrecv; try reflexivity.
  destruct (Dht.extractData timeout signals (replicate 5 0) w2)
    as [[[e|] buf] w3| |] eqn:Hext; on_both Hext; try reflexivity.
  destruct (isValid buf w3) as [[|] w4| |] eqn:Hvalid; on_both Hvalid;
    try reflexivity.
  cbn [negb]. now destruct (variantExtractData (measurements t) buf).
Qed.


End Versions.

Section EarlierVersion.

Variable timeout : Z.
Variable fuel : nat.
Variable DeviceType : Type.
Variable variantExtractData : DeviceType -> list Z -> Z * Z.

Hypothesis timeout_uint16 : 0 <= timeout < 65536.
Hypothesis enough_fuel : (Z.to_nat timeout < fuel)%nat.

Lemma forget_lift (t : Legacy.device DeviceType) : forget (lift t) = t.
Proof. now destruct t. Qed.

Lemma isValid_any_world (buf : list Z) (v : bool) (w1 w2 : World) :
  isValid buf w1 = Ret v w1 -> isValid buf w2 = Ret v w2.
Proof.
  destruct buf as [|b0 [|b1 [|b2 [|b3 [|b4 rest]]]]]; try discriminate.
  intros H. injection H as <-. reflexivity.
Qed.


End EarlierVersion.

(** ** The further properties at concrete inputs *)

Ltac spell_cases :=
  intros i low high b Hi Hl Hh Hb;
  do 40 (destruct i as [|i];
         [vm_compute in Hl, Hh, Hb;
          injection Hl as <-; injection Hh as <-; injection Hb as <-;
          vm_compute; split; intros; first [reflexivity | discriminate]
         |]);
  lia.

Ltac all_uint8 := repeat (constructor; [unfold is_uint8; lia|]); constructor.

Lemma isValid_detects_one_changed_byte_witness :
  length [0x32; 0x00; 0x19; 0x00; 0x4B] = 5%nat
  /\ [0x32; 0x00; 0x19; 0x00; 0x4B] !! 2%nat = Some 0x19
  /\ isValid [0x32; 0x00; 0x19; 0x00; 0x4B] line_idle = Ret true line_idle
  /\ isValid (<[2%nat := 0x1A]> [0x32; 0x00; 0x19; 0x00; 0x4B]) line_idle
     = Ret false line_idle.
Proof.
  repeat (split; [reflexivity|]).
  apply (isValid_detects_one_changed_byte _ 2%nat 0x1A 0x19);
    [reflexivity | all_uint8 | unfold is_uint8; lia | reflexivity | lia | reflexivity].
Defined.

Lemma isValid_bounds_witness :
  isValid [1; 2] line_idle = Panic
  /\ isValid [1; 2; 3; 4; 10; 99] line_idle = isValid (take 5 [1; 2; 3; 4; 10; 99]) line_idle
  /\ exists v, isValid [1; 2; 3; 4; 10; 99] line_idle = Ret v line_idle.
Proof.
  split.
  - apply (proj1 (isValid_bounds [1; 2] line_idle)). cbn. lia.
  - apply (proj2 (isValid_bounds [1; 2; 3; 4; 10; 99] line_idle)). cbn. lia.
Defined.

Lemma waitForDataTransmission_accepts_witness :
  handshake_seen line_payload 2 2 2
  /\ waitForDataTransmission timeout_ex fuel_ex 4 line_payload
     = Ret None (advance (2 + 2 + 2 + 3) line_payload)
  /\ exists a b c,
      handshake_seen line_payload a b c
      /\ Z.of_nat a < timeout_ex /\ Z.of_nat b < timeout_ex /\ Z.of_nat c < timeout_ex
      /\ advance (2 + 2 + 2 + 3) line_payload = advance (a + b + c + 3) line_payload.
Proof.
  assert (Hseen : handshake_seen line_payload 2 2 2).
  { unfold handshake_seen.
    repeat split; try reflexivity;
      intros k Hk; do 2 (destruct k as [|k]; [reflexivity|]); lia. }
  destruct (waitForDataTransmission_accepts timeout_ex fuel_ex
              ltac:(fixture_bounds) ltac:(fixture_bounds) 4 line_payload)
    as [Hif Honly].
  assert (Hrun : waitForDataTransmission timeout_ex fuel_ex 4 line_payload
                 = Ret None (advance (2 + 2 + 2 + 3) line_payload))
    by (apply Hif; [exact Hseen | fixture_bounds..]).
  split; [exact Hseen|]. split; [exact Hrun|]. exact (Honly _ Hrun).
Defined.


Lemma extractData_yields_payload_witness :
  length (counts_of [25; 0; 60; 0; 85]) = 80%nat
  /\ (forall s, s ∈ counts_of [25; 0; 60; 0; 85] -> s <> timeout_ex)
  /\ spells (counts_of [25; 0; 60; 0; 85]) [25; 0; 60; 0; 85]
  /\ extractData timeout_ex (counts_of [25; 0; 60; 0; 85]) (replicate 5 255) line_idle
     = Ret (None, [25; 0; 60; 0; 85]) line_idle.
Proof.
  assert (Hclean : forall s, s ∈ counts_of [25; 0; 60; 0; 85] -> s <> timeout_ex)
    by (apply Forall_forall; all_differ).
  assert (Hspell : spells (counts_of [25; 0; 60; 0; 85]) [25; 0; 60; 0; 85])
    by (unfold spells; spell_cases).
  split; [reflexivity|]. split; [exact Hclean|]. split; [exact Hspell|].
  apply (extractData_yields_payload timeout_ex);
    [reflexivity | reflexivity | reflexivity | all_uint8 | exact Hclean | exact Hspell].
Defined.

Lemma extractData_short_panics_witness :
  (forall s, s ∈ replicate 79 7 -> s <> timeout_ex)
  /\ extractData timeout_ex (replicate 79 7) (replicate 5 0) line_idle = Panic
  /\ extractData timeout_ex (replicate 80 7) [] line_idle = Panic.
Proof.
  assert (H79 : forall s, s ∈ replicate 79 7 -> s <> timeout_ex)
    by (apply Forall_forall; all_differ).
  assert (H80 : forall s, s ∈ replicate 80 7 -> s <> timeout_ex)
    by (apply Forall_forall; all_differ).
  split; [exact H79|]. split.
  - apply (extractData_short_panics timeout_ex); [exact H79 | left; cbn; lia].
  - apply (extractData_short_panics timeout_ex); [exact H80 | right; cbn; lia].
Defined.

Lemma receiveSignals_short_panics_witness :
  (length (replicate 79 0) < 80)%nat
  /\ receiveSignals timeout_ex fuel_ex Variant fresh (replicate 79 0) line_idle = Panic.
Proof.
  split; [rewrite length_replicate; lia|].
  apply (receiveSignals_short_panics timeout_ex fuel_ex Variant
           ltac:(fixture_bounds) ltac:(fixture_bounds)).
  rewrite length_replicate. lia.
Defined.

Lemma read_success_from_valid_buffer_witness :
  read timeout_ex fuel_ex Variant integerExtractData fresh line_payload
  = Ret (None, mkDevice 4 IntegerVariant false 600 250)
        (later line_payload 242 (reception_events ++ handshake_events 4))
  /\ exists signals buf w1,
      waitForDataTransmission timeout_ex fuel_ex (pin fresh)
        (mkWorld (levels line_payload) (reads line_payload)
           (handshake_events (pin fresh) ++ trace line_payload))
      = Ret None w1
      /\ receiveSignals timeout_ex fuel_ex Variant fresh (replicate 80 0) w1
         = Ret signals (later line_payload 242 (reception_events ++ handshake_events 4))
      /\ (forall s, s ∈ signals -> s <> timeout_ex)
      /\ extractData timeout_ex signals (replicate 5 0)
           (later line_payload 242 (reception_events ++ handshake_events 4))
         = Ret (None, buf)
               (later line_payload 242 (reception_events ++ handshake_events 4))
      /\ isValid buf (later line_payload 242 (reception_events ++ handshake_events 4))
         = Ret true (later line_payload 242 (reception_events ++ handshake_events 4))
      /\ (temperature (mkDevice 4 IntegerVariant false 600 250),
          humidity (mkDevice 4 IntegerVariant false 600 250))
         = integerExtractData (measurements fresh) buf
      /\ pin (mkDevice 4 IntegerVariant false 600 250) = pin fresh
      /\ measurements (mkDevice 4 IntegerVariant false 600 250) = measurements fresh
      /\ initialized (mkDevice 4 IntegerVariant false 600 250) = initialized fresh.
Proof.
  assert (Hread : read timeout_ex fuel_ex Variant integerExtractData fresh line_payload
                  = Ret (None, mkDevice 4 IntegerVariant false 600 250)
                        (later line_payload 242
                           (reception_events ++ handshake_events 4)))
    by (vm_compute; reflexivity).
  split; [exact Hread|].
  exact (read_success_from_valid_buffer timeout_ex fuel_ex Variant integerExtractData
           ltac:(fixture_bounds) ltac:(fixture_bounds) _ _ _ _ Hread).
Defined.

Lemma read_decodes_payload_witness :
  waitForDataTransmission timeout_ex fuel_ex (pin fresh)
    (mkWorld (levels line_payload) (reads line_payload)
       (handshake_events (pin fresh) ++ trace line_payload))
  = Ret None (later line_payload 9 (handshake_events 4))
  /\ receiveSignals timeout_ex fuel_ex Variant fresh (replicate 80 0)
       (later line_payload 9 (handshake_events 4))
     = Ret (counts_of [25; 0; 60; 0; 85])
           (later line_payload 242 (reception_events ++ handshake_events 4))
  /\ spells (counts_of [25; 0; 60; 0; 85]) [25; 0; 60; 0; 85]
  /\ read timeout_ex fuel_ex Variant integerExtractData fresh line_payload
     = if 85 =? (25 + 0 + 60 + 0) mod 256
       then Ret (None,
                 set_measurements fresh
                   (fst (integerExtractData (measurements fresh) [25; 0; 60; 0; 85]))
                   (snd (integerExtractData (measurements fresh) [25; 0; 60; 0; 85])))
                (later line_payload 242 (reception_events ++ handshake_events 4))
       else Ret (Some ChecksumError, fresh)
                (later line_payload 242 (reception_events ++ handshake_events 4)).
Proof.
  assert (Hwait : waitForDataTransmission timeout_ex fuel_ex (pin fresh)
                    (mkWorld (levels line_payload) (reads line_payload)
                       (handshake_events (pin fresh) ++ trace line_payload))
                  = Ret None (later line_payload 9 (handshake_events 4)))
    by (vm_compute; reflexivity).
  assert (Hrecv : receiveSignals timeout_ex fuel_ex Variant fresh (replicate 80 0)
                    (later line_payload 9 (handshake_events 4))
                  = Ret (counts_of [25; 0; 60; 0; 85])
                        (later line_payload 242
                           (reception_events ++ handshake_events 4)))
    by (vm_compute; reflexivity).
  assert (Hspell : spells (counts_of [25; 0; 60; 0; 85]) [25; 0; 60; 0; 85])
    by (unfold spells; spell_cases).
  split; [exact Hwait|]. split; [exact Hrecv|]. split; [exact Hspell|].
  apply (read_decodes_payload timeout_ex fuel_ex Variant integerExtractData
           ltac:(fixture_bounds) ltac:(fixture_bounds) fresh line_payload _ _ _
           25 0 60 0 85 Hwait Hrecv);
    [apply Forall_forall; all_differ | all_uint8 | exact Hspell].
Defined.


Lemma ReadMeasurements_bounded_witness :
  exists temp hum e t' w',
    Measurements timeout_ex fuel_ex Variant integerExtractData warm line_idle
    = Ret ((temp, hum, e), t') w'
    /\ ReadMeasurements timeout_ex fuel_ex Variant integerExtractData warm line_idle
       = Ret (e, t') w'
    /\ Z.of_nat (reads line_idle) + 2 <= Z.of_nat (reads w')
       <= Z.of_nat (reads line_idle) + 1 + 83 * (timeout_ex + 1).
Proof.
  apply (ReadMeasurements_bounded timeout_ex fuel_ex Variant integerExtractData);
    fixture_bounds.
Defined.

Lemma constant_line_gives_NoSignal_witness :
  (forall k, upcoming line_idle k = true)
  /\ (exists w',
        read timeout_ex fuel_ex Variant integerExtractData warm line_idle
        = Ret (Some NoSignalError, warm) w')
  /\ (exists t' w',
        ReadMeasurements timeout_ex fuel_ex Variant integerExtractData warm line_idle
        = Ret (Some NoSignalError, t') w'
        /\ temperature t' = temperature warm
        /\ humidity t' = humidity warm).
Proof.
  assert (Hidle : forall k, upcoming line_idle k = true).
  { intros k. unfold upcoming, line_idle, recording. cbn [levels reads].
    now destruct (k + 0)%nat. }
  split; [exact Hidle|].
  exact (constant_line_gives_NoSignal timeout_ex fuel_ex Variant integerExtractData
           ltac:(fixture_bounds) ltac:(fixture_bounds) warm line_idle true Hidle).
Defined.

